(** * Verification of the analysis tools of [debugger]

    Source: [src/debugger/tools/custom_tool.py].  The module defines three
    tools, each a class with a [_run] method returning a Python [dict]:

    - [CodeAnalysisTool._run]  : structural facts of a parsed source text;
    - [DependencyAnalyzer._run]: dependency files and installed packages;
    - [SolutionValidator._run] : textual checks plus a class-structure check.

    Python values are embedded as follows.  A [str] is a [string] whose
    characters are the code points below 256.  A returned [dict] is an
    association list in insertion order ([pyval]).  The body of every
    [try: ... except Exception as e:] block is a computation in the error
    monad [M], and the handler is the [match] that closes it.  The CPython
    functions [ast.parse] and [ast.unparse], the [pip] subprocess and the
    file system are parameters of the model. *)

From Stdlib Require Import List String Ascii Bool Arith ZArith Lia.
From Stdlib Require Import DecimalString.
Import ListNotations.
Open Scope string_scope.
Open Scope list_scope.
Open Scope nat_scope.

Set Implicit Arguments.
Set Warnings "-register-all".

(* ================================================================== *)
(** * Text primitives *)

Module Text.

(** [s.startswith(p)] *)
Fixpoint startswith (p s : string) : bool :=
  match p, s with
  | EmptyString, _ => true
  | String a p', String b s' => Ascii.eqb a b && startswith p' s'
  | String _ _, EmptyString => false
  end.

(** [needle in hay] on [str]: a substring test. *)
Fixpoint str_in (needle hay : string) : bool :=
  startswith needle hay ||
  match hay with
  | EmptyString => false
  | String _ hay' => str_in needle hay'
  end.

(** [s.count(c)] for a one-character [c]. *)
Fixpoint count_char (c : ascii) (s : string) : nat :=
  match s with
  | EmptyString => 0
  | String a s' => (if Ascii.eqb a c then 1 else 0) + count_char c s'
  end.

Definition code (c : ascii) : nat := nat_of_ascii c.

(** Line boundaries of [str.splitlines()] among the code points below 256:
    LF, VT, FF, CR, FS, GS, RS and NEL. *)
Definition is_linebreak (c : ascii) : bool :=
  let n := code c in
  ((10 <=? n) && (n <=? 13)) || ((28 <=? n) && (n <=? 30)) || (n =? 133).

(** [str.isspace] on one character, which is also the class [\s] of [re]
    for a [str] pattern: TAB..CR, FS..US, SPACE, NEL and NBSP. *)
Definition is_space (c : ascii) : bool :=
  let n := code c in
  ((9 <=? n) && (n <=? 13)) || ((28 <=? n) && (n <=? 32)) ||
  (n =? 133) || (n =? 160).

Definition CR : ascii := ascii_of_nat 13.
Definition LF : ascii := ascii_of_nat 10.
Definition TAB : ascii := ascii_of_nat 9.

(** [str.splitlines()]: the text is cut at every line boundary, CR LF
    counting as one; a final boundary opens no extra empty line.  [cur] is
    the line being read, last character first; [opened] says whether a line
    is being read; [after_cr] whether the previous character was CR. *)
Fixpoint splitlines_from (cur : list ascii) (opened after_cr : bool)
    (s : string) : list string :=
  match s with
  | EmptyString =>
      if opened then [string_of_list_ascii (rev cur)] else []
  | String c s' =>
      if after_cr && Ascii.eqb c LF then splitlines_from cur opened false s'
      else if is_linebreak c then
        string_of_list_ascii (rev cur)
          :: splitlines_from [] false (Ascii.eqb c CR) s'
      else splitlines_from (c :: cur) true false s'
  end.

Definition splitlines (s : string) : list string :=
  splitlines_from [] false false s.

Fixpoint drop_spaces (l : list ascii) : list ascii :=
  match l with
  | c :: l' => if is_space c then drop_spaces l' else l
  | [] => []
  end.

(** [s.rstrip()] *)
Definition rstrip (s : string) : string :=
  string_of_list_ascii (rev (drop_spaces (rev (list_ascii_of_string s)))).

(** [s.endswith(c)] for a one-character [c]. *)
Definition endswith_char (c : ascii) (s : string) : bool :=
  match rev (list_ascii_of_string s) with
  | d :: _ => Ascii.eqb d c
  | [] => false
  end.

End Text.

(* ================================================================== *)
(** * Regular expressions of [re]

    The three patterns of the source use literals, character classes, [.],
    concatenation, alternation, [*] and [+]; one starts with [^] under
    [re.MULTILINE].  [re.search] is used only through [bool(...)], so what
    matters is whether some substring matches. *)

Module Re.
Import Text.

Inductive charset : Type :=
| CLit (c : ascii)                 (* a literal character *)
| CRange (lo hi : ascii)           (* [lo-hi] *)
| CSpace                           (* \s *)
| CDot                             (* . : anything but a line feed *)
| CUnion (a b : charset).          (* members of one [...] class *)

Fixpoint cs_mem (cs : charset) (c : ascii) : bool :=
  match cs with
  | CLit d => Ascii.eqb c d
  | CRange lo hi => (code lo <=? code c) && (code c <=? code hi)
  | CSpace => is_space c
  | CDot => negb (Ascii.eqb c LF)
  | CUnion a b => cs_mem a c || cs_mem b c
  end.

Inductive regex : Type :=
| Void
| Eps
| Set_ (cs : charset)
| Cat (r1 r2 : regex)
| Alt (r1 r2 : regex)
| Star (r : regex).

(** [r+] *)
Definition Plus (r : regex) : regex := Cat r (Star r).

(** A literal word. *)
Fixpoint Lit (w : string) : regex :=
  match w with
  | EmptyString => Eps
  | String c w' => Cat (Set_ (CLit c)) (Lit w')
  end.

(** The words a pattern matches in full. *)
Inductive matches : regex -> string -> Prop :=
| MEps : matches Eps ""
| MSet cs c : cs_mem cs c = true -> matches (Set_ cs) (String c "")
| MCat r1 r2 s1 s2 :
    matches r1 s1 -> matches r2 s2 -> matches (Cat r1 r2) (s1 ++ s2)
| MAltL r1 r2 s : matches r1 s -> matches (Alt r1 r2) s
| MAltR r1 r2 s : matches r2 s -> matches (Alt r1 r2) s
| MStar0 r : matches (Star r) ""
| MStarS r s1 s2 :
    matches r s1 -> matches (Star r) s2 -> matches (Star r) (s1 ++ s2).

Fixpoint nullable (r : regex) : bool :=
  match r with
  | Void => false
  | Eps => true
  | Set_ _ => false
  | Cat r1 r2 => nullable r1 && nullable r2
  | Alt r1 r2 => nullable r1 || nullable r2
  | Star _ => true
  end.

(** What is left of [r] once [c] has been read. *)
Fixpoint deriv (c : ascii) (r : regex) : regex :=
  match r with
  | Void => Void
  | Eps => Void
  | Set_ cs => if cs_mem cs c then Eps else Void
  | Cat r1 r2 =>
      if nullable r1
      then Alt (Cat (deriv c r1) r2) (deriv c r2)
      else Cat (deriv c r1) r2
  | Alt r1 r2 => Alt (deriv c r1) (deriv c r2)
  | Star r1 => Cat (deriv c r1) (Star r1)
  end.

(** [re.match(r, s)] as a truth value: some prefix of [s] matches. *)
Fixpoint match_prefix (r : regex) (s : string) : bool :=
  nullable r ||
  match s with
  | EmptyString => false
  | String c s' => match_prefix (deriv c r) s'
  end.

(** [bool(re.search(r, s))]: a match may start anywhere. *)
Fixpoint search (r : regex) (s : string) : bool :=
  match_prefix r s ||
  match s with
  | EmptyString => false
  | String _ s' => search r s'
  end.

(** [re.search] under [re.MULTILINE] for a pattern that is [^] followed by
    [r], as a truth value: a match may start at the
    beginning of the text and just after every line feed.  [bol] says
    whether the current position is such a place. *)
Fixpoint search_bol_from (bol : bool) (r : regex) (s : string) : bool :=
  (bol && match_prefix r s) ||
  match s with
  | EmptyString => false
  | String c s' => search_bol_from (Ascii.eqb c LF) r s'
  end.

Definition search_multiline_bol (r : regex) (s : string) : bool :=
  search_bol_from true r s.

End Re.

(* ================================================================== *)
(** * Syntax trees of the [ast] module

    The tools test nodes with [isinstance] against [Import], [ImportFrom],
    [Call], [Name], [Attribute], [ClassDef], [FunctionDef] and [Assign], and
    read the fields of those.  Every other node class is an [Other] node: its
    class name and its child nodes in the order [ast.iter_child_nodes] gives
    them.  Fields are listed in the order of [_fields]; fields that hold no
    node and that the tools never read ([type_comment], [lineno], ...) are
    left out. *)

Module Ast.

Inductive expr_context : Type := Load | Store | Del.

Inductive constant : Type :=
| KNone
| KBool (b : bool)
| KInt (z : Z)
| KStr (s : string)
| KOther (repr : string).     (* float, complex, bytes, Ellipsis *)

(** [ast.alias] *)
Record alias : Type := { alias_name : string; asname : option string }.

Inductive node : Type :=
| Module (body : list node)
| Import (names : list alias)
| ImportFrom (module : option string) (names : list alias) (level : Z)
| ClassDef (name : string) (bases : list node)
    (keywords : list (option string * node)) (body : list node)
    (decorator_list : list node) (type_params : list node)
| FunctionDef (name : string) (args : arguments) (body : list node)
    (decorator_list : list node) (returns : option node)
    (type_params : list node)
| AsyncFunctionDef (name : string) (args : arguments) (body : list node)
    (decorator_list : list node) (returns : option node)
    (type_params : list node)
| Assign (targets : list node) (value : node)
| Call (func : node) (args : list node)
    (keywords : list (option string * node))
| Name (id : string) (ctx : expr_context)
| Attribute (value : node) (attr : string) (ctx : expr_context)
| Subscript (value : node) (slice : node) (ctx : expr_context)
| Tuple (elts : list node) (ctx : expr_context)
| Constant (value : constant)
| Other (class_name : string) (children : list node)
with arguments : Type :=
| Arguments (posonlyargs : list arg) (args : list arg)
    (vararg : option arg) (kwonlyargs : list arg)
    (kw_defaults : list (option node)) (kwarg : option arg)
    (defaults : list node)
with arg : Type :=
| Arg (arg_name : string) (annotation : option node).

(** Field access. *)
Definition arguments_args (a : arguments) : list arg :=
  match a with Arguments _ args _ _ _ _ _ => args end.

Definition arg_arg (a : arg) : string :=
  match a with Arg n _ => n end.

Definition opt_list {A : Type} (o : option A) : list A :=
  match o with Some x => [x] | None => [] end.

(** Nodes of classes the tools never test for, seen as [Other] nodes. *)
Definition node_of_ctx (c : expr_context) : node :=
  match c with
  | Load => Other "Load" []
  | Store => Other "Store" []
  | Del => Other "Del" []
  end.

Definition node_of_alias (a : alias) : node := Other "alias" [].

Definition node_of_keyword (k : option string * node) : node :=
  Other "keyword" [snd k].

Definition node_of_arg (a : arg) : node :=
  match a with Arg _ ann => Other "arg" (opt_list ann) end.

Definition node_of_arguments (a : arguments) : node :=
  match a with
  | Arguments posonly args vararg kwonly kw_defaults kwarg defaults =>
      Other "arguments"
        (map node_of_arg posonly ++ map node_of_arg args
           ++ map node_of_arg (opt_list vararg)
           ++ map node_of_arg kwonly
           ++ flat_map (@opt_list node) kw_defaults
           ++ map node_of_arg (opt_list kwarg)
           ++ defaults)
  end.

(** [ast.iter_child_nodes(n)] *)
Definition iter_child_nodes (n : node) : list node :=
  match n with
  | Module body => body
  | Import names => map node_of_alias names
  | ImportFrom _ names _ => map node_of_alias names
  | ClassDef _ bases keywords body decorator_list type_params =>
      bases ++ map node_of_keyword keywords ++ body ++ decorator_list
        ++ type_params
  | FunctionDef _ args body decorator_list returns type_params
  | AsyncFunctionDef _ args body decorator_list returns type_params =>
      node_of_arguments args :: body ++ decorator_list ++ opt_list returns
        ++ type_params
  | Assign targets value => targets ++ [value]
  | Call func args keywords => func :: args ++ map node_of_keyword keywords
  | Name _ ctx => [node_of_ctx ctx]
  | Attribute value _ ctx => [value; node_of_ctx ctx]
  | Subscript value slice ctx => [value; slice; node_of_ctx ctx]
  | Tuple elts ctx => elts ++ [node_of_ctx ctx]
  | Constant _ => []
  | Other _ children => children
  end.

(** Number of nodes of a tree, which bounds the iterations of [walk]. *)
Fixpoint size (n : node) : nat :=
  let sizes := fun l => list_sum (map size l) in
  let size_opt := fun o => match o with Some x => size x | None => 0 end in
  let size_kws := fun (l : list (option string * node)) =>
    list_sum (map (fun k => 1 + size (snd k)) l) in
  match n with
  | Module body => 1 + sizes body
  | Import names => 1 + List.length names
  | ImportFrom _ names _ => 1 + List.length names
  | ClassDef _ bases keywords body decorator_list type_params =>
      1 + sizes bases + size_kws keywords + sizes body
        + sizes decorator_list + sizes type_params
  | FunctionDef _ args body decorator_list returns type_params
  | AsyncFunctionDef _ args body decorator_list returns type_params =>
      1 + size_arguments args + sizes body + sizes decorator_list
        + size_opt returns + sizes type_params
  | Assign targets value => 1 + sizes targets + size value
  | Call func args keywords => 1 + size func + sizes args + size_kws keywords
  | Name _ _ => 2
  | Attribute value _ _ => 2 + size value
  | Subscript value slice _ => 2 + size value + size slice
  | Tuple elts _ => 2 + sizes elts
  | Constant _ => 1
  | Other _ children => 1 + sizes children
  end
with size_arguments (a : arguments) : nat :=
  let size_args := fun l => list_sum (map size_arg l) in
  let size_arg_opt := fun o =>
    match o with Some x => size_arg x | None => 0 end in
  match a with
  | Arguments posonly args vararg kwonly kw_defaults kwarg defaults =>
      1 + size_args posonly + size_args args + size_arg_opt vararg
        + size_args kwonly
        + list_sum (map (fun o => match o with
                                  | Some x => size x
                                  | None => 0
                                  end) kw_defaults)
        + size_arg_opt kwarg + list_sum (map size defaults)
  end
with size_arg (a : arg) : nat :=
  match a with
  | Arg _ (Some ann) => 1 + size ann
  | Arg _ None => 1
  end.

(** [ast.walk(n)]: a queue holds the nodes still to be yielded; each turn
    takes the first one, appends its children at the back and yields it. *)
Fixpoint walk_loop (fuel : nat) (todo : list node) : list node :=
  match fuel, todo with
  | S fuel', n :: rest => n :: walk_loop fuel' (rest ++ iter_child_nodes n)
  | _, _ => []
  end.

Definition walk (n : node) : list node := walk_loop (size n) [n].

End Ast.

(* ================================================================== *)
(** * Python values, exceptions and loops *)

Module Py.

(** An instance of a subclass of [Exception]; [str(e)] is [exc_msg]. *)
Record exc : Type := Exc { exc_class : string; exc_msg : string }.

(** The values the tools return: [Dict[str, Any]] with booleans, strings,
    lists and nested dictionaries.  A dictionary keeps insertion order. *)
Inductive pyval : Type :=
| VBool (b : bool)
| VStr (s : string)
| VList (l : list pyval)
| VDict (items : list (string * pyval)).

Fixpoint assoc (k : string) (items : list (string * pyval)) : option pyval :=
  match items with
  | [] => None
  | (k', v) :: items' => if String.eqb k k' then Some v else assoc k items'
  end.

(** [d.get(k)] *)
Definition dict_get (k : string) (d : pyval) : option pyval :=
  match d with VDict items => assoc k items | _ => None end.

(** [d[k1][k2]...] *)
Fixpoint dict_path (ks : list string) (d : pyval) : option pyval :=
  match ks with
  | [] => Some d
  | k :: ks' =>
      match dict_get k d with
      | Some v => dict_path ks' v
      | None => None
      end
  end.

(** [list(d.keys())] *)
Definition dict_keys (d : pyval) : list string :=
  match d with VDict items => map fst items | _ => [] end.

(** A computation that returns a value or raises. *)
Definition M (A : Type) : Type := (exc + A)%type.

Definition ret {A : Type} (x : A) : M A := inr x.
Definition raise {A : Type} (e : exc) : M A := inl e.

Definition bind {A B : Type} (c : M A) (k : A -> M B) : M B :=
  match c with
  | inl e => inl e
  | inr x => k x
  end.

(** [for x in l: body], the variables the body assigns being the state. *)
Fixpoint for_each {A S : Type} (l : list A) (body : A -> S -> M S) (st : S)
  : M S :=
  match l with
  | [] => ret st
  | x :: l' => bind (body x st) (for_each l' body)
  end.

(** The same for a body that cannot raise. *)
Fixpoint for_loop {A S : Type} (l : list A) (body : A -> S -> S) (st : S)
  : S :=
  match l with
  | [] => st
  | x :: l' => for_loop l' body (body x st)
  end.

(** The handler [except Exception as e], which returns a dictionary with
    [str(e)] under error and [False] under success. *)
Definition failure (e : exc) : pyval :=
  VDict [("error", VStr (exc_msg e)); ("success", VBool false)].

(** [try: <body> except Exception as e: <failure>] around a body that ends
    in [return]. *)
Definition try_except (body : M pyval) : pyval :=
  match body with
  | inr result => result
  | inl e => failure e
  end.

End Py.

Declare Scope py_scope.
Notation "x <- c ;; k" := (Py.bind c (fun x => k))
  (at level 61, c at next level, right associativity) : py_scope.
Notation "' p <- c ;; k" := (Py.bind c (fun x => match x with p => k end))
  (at level 61, p pattern, c at next level, right associativity) : py_scope.
Open Scope py_scope.

(* ================================================================== *)
(** * [class CodeAnalysisTool] *)

Module CodeAnalysisTool.
Import Text Ast Py.

Section Run.

(** [ast.parse(code)] and [ast.unparse(node)] of CPython. *)
Variable ast_parse : string -> M node.
Variable ast_unparse : node -> M string.

(** Lines 32-35. *)
Definition collect_imports (tree : node) : M (list string) :=
  for_each (walk tree)
    (fun node imports =>
       match node with
       | Import _ | ImportFrom _ _ _ =>
           text <- ast_unparse node ;;
           ret (imports ++ [text])
       | _ => ret imports
       end)
    [].

(** Lines 38-45; the state is [(function_calls, attributes)]. *)
Definition collect_calls (tree : node) : M (list string * list string) :=
  for_each (walk tree)
    (fun node st =>
       match node with
       | Call (Name id _) _ _ => ret (fst st ++ [id], snd st)
       | Call (Attribute value attr _) _ _ =>
           text <- ast_unparse value ;;
           ret (fst st, snd st ++ [(text ++ "." ++ attr)%string])
       | _ => ret st
       end)
    ([], []).

(** Line 51: [[n.name for n in ast.walk(node) if isinstance(n, ast.FunctionDef)]]. *)
Definition methods_of (node : node) : list string :=
  flat_map
    (fun n => match n with FunctionDef name _ _ _ _ _ => [name] | _ => [] end)
    (walk node).

(** Lines 48-55. *)
Definition collect_classes (tree : node) : list pyval :=
  for_loop (walk tree)
    (fun node classes =>
       match node with
       | ClassDef name _ _ _ _ _ =>
           let methods := methods_of node in
           classes ++ [VDict [("name", VStr name);
                              ("methods", VList (map VStr methods))]]
       | _ => classes
       end)
    [].

(** Lines 58-66. *)
Definition collect_variables (tree : node) : M (list pyval) :=
  for_each (walk tree)
    (fun node variables =>
       match node with
       | Assign targets value =>
           for_each targets
             (fun target variables =>
                match target with
                | Name id _ =>
                    text <- ast_unparse value ;;
                    ret (variables ++ [VDict [("name", VStr id);
                                              ("value", VStr text)]])
                | _ => ret variables
                end)
             variables
       | _ => ret variables
       end)
    [].

(** The body of the [try] block, lines 29-75. *)
Definition run_body (code : string) : M pyval :=
  tree <- ast_parse code ;;
  imports <- collect_imports tree ;;
  calls <- collect_calls tree ;;
  let classes := collect_classes tree in
  variables <- collect_variables tree ;;
  ret (VDict [("imports", VList (map VStr imports));
              ("function_calls", VList (map VStr (fst calls)));
              ("attributes", VList (map VStr (snd calls)));
              ("classes", VList classes);
              ("variables", VList variables);
              ("success", VBool true)]).

Definition _run (code : string) : pyval := try_except (run_body code).

End Run.

End CodeAnalysisTool.

(* ================================================================== *)
(** * [class DependencyAnalyzer] *)

Module DependencyAnalyzer.
Import Text Py.

(** [subprocess.CompletedProcess] *)
Record CompletedProcess : Type :=
  { returncode : Z; stdout : string; stderr : string }.

(** What the call of [subprocess.run] on lines 93-97 does: it runs pip list
    with JSON output and captures the output as text.  Neither [check] nor
    [timeout] is passed.  The call returns when the child has exited, with
    any exit status, and its output could be decoded as text.  The call
    raises when the program cannot be started and when the child has exited
    but its output is no valid text.  Nothing bounds the time a child that
    never exits is waited for. *)
Inductive run_outcome : Type :=
| Returns (p : CompletedProcess)
| Raises (e : exc)
| Blocks.

(** The machine the tool runs on.  [path_exists p f] is
    [(Path(p) / f).exists()], which answers or raises (an [OSError] that
    [pathlib] does not swallow).  [is_readable_dir] tells which paths resolve
    to a readable directory; [_run] never asks. *)
Record host : Type :=
  { pip_list : run_outcome;
    path_exists : string -> string -> M bool;
    is_readable_dir : string -> bool }.

(** Lines 103-109. *)
Definition common_dep_files : list string :=
  ["requirements.txt"; "pyproject.toml"; "setup.py"; "Pipfile";
   "poetry.lock"].

Section Run.

Variable h : host.

(** Lines 112-113, the body of the loop over [common_dep_files]. *)
Definition check_file (project_path file : string) (dep_files : list string)
  : M (list string) :=
  present <- path_exists h project_path file ;;
  ret (if present then dep_files ++ [file] else dep_files).

(** Lines 100-113. *)
Definition find_dep_files (project_path : string) : M (list string) :=
  for_each common_dep_files (check_file project_path) [].

(** The body of the [try] block once [subprocess.run] has returned
    [result]. *)
Definition after_pip (result : CompletedProcess) (project_path : string)
  : M pyval :=
  dep_files <- find_dep_files project_path ;;
  ret (VDict [("installed_packages", VStr (stdout result));
              ("dependency_files", VList (map VStr dep_files));
              ("success", VBool true)]).

(** [_run]; [None] when the call never returns. *)
Definition _run (project_path : string) : option pyval :=
  match pip_list h with
  | Blocks => None
  | Raises e => Some (try_except (raise e))
  | Returns result => Some (try_except (after_pip result project_path))
  end.

End Run.

End DependencyAnalyzer.

(* ================================================================== *)
(** * [class SolutionValidator] *)

Module SolutionValidator.
Import Text Re Ast Py.

Definition dquote : ascii := ascii_of_nat 34.
Definition squote : ascii := ascii_of_nat 39.
Definition triple (q : ascii) : string := String q (String q (String q "")).

Definition upper : charset := CRange "A" "Z".
Definition lower : charset := CRange "a" "z".

(** The pattern of line 139: a colon, a run of [\s], one or more ASCII
    letters, then a run of brackets, commas and [\s]. *)
Definition type_hint_re : regex :=
  Cat (Lit ":")
    (Cat (Star (Set_ CSpace))
       (Cat (Plus (Set_ (CUnion upper lower)))
          (Star (Set_ (CUnion (CLit "[")
                         (CUnion (CLit "]") (CUnion (CLit ",") CSpace))))))).

(** The pattern of line 147 without its leading [^]: one or more of A-Z
    and the underscore, a run of [\s], an equals sign. *)
Definition global_re : regex :=
  Cat (Plus (Set_ (CUnion upper (CLit "_"))))
    (Cat (Star (Set_ CSpace)) (Lit "=")).

(** The pattern of line 148: the word def, a run of [.], an opening
    parenthesis, then either a run of [.], the three characters =[] and a
    run of [.], or the same around the three characters ={}, then a closing
    parenthesis.  The braces form no repetition count, so both are
    literal. *)
Definition mutable_re : regex :=
  let any := Star (Set_ CDot) in
  Cat (Lit "def")
    (Cat any
       (Cat (Lit "(")
          (Cat (Alt (Cat any (Cat (Lit "=[]") any))
                  (Cat any (Cat (Lit "={}") any)))
             (Lit ")")))).

(** [_check_pep8], lines 176-183. *)
Definition _check_pep8 (code : string) : bool :=
  let checks :=
    [ count_char TAB code =? 0;
      negb (existsb (fun line => endswith_char " " (rstrip line))
              (splitlines code));
      forallb (fun line => String.length line <=? 79) (splitlines code) ] in
  forallb (fun b => b) checks.

(** Lines 137-142. *)
Definition has_docstring (code : string) : bool :=
  str_in (triple dquote) code || str_in (triple squote) code.
Definition has_type_hints (code : string) : bool := search type_hint_re code.
Definition has_error_handling (code : string) : bool :=
  str_in "try:" code && str_in "except" code.

Definition quality_checks (code : string) : pyval :=
  VDict [("has_docstring", VBool (has_docstring code));
         ("has_type_hints", VBool (has_type_hints code));
         ("has_error_handling", VBool (has_error_handling code));
         ("follows_pep8", VBool (_check_pep8 code))].

(** Lines 145-149. *)
Definition bare_except (code : string) : bool := str_in "except:" code.
Definition global_variables (code : string) : bool :=
  search_multiline_bol global_re code.
Definition mutable_defaults (code : string) : bool := search mutable_re code.

Definition anti_patterns (code : string) : pyval :=
  VDict [("bare_except", VBool (bare_except code));
         ("global_variables", VBool (global_variables code));
         ("mutable_defaults", VBool (mutable_defaults code))].

(** The message built on line 162. *)
Definition issue_message (name : string) : string :=
  ("Method '" ++ name ++ "' missing 'self' parameter")%string.

(** Line 158: [[n for n in ast.walk(node) if isinstance(n, ast.FunctionDef)]]. *)
Definition function_defs (node : node) : list Ast.node :=
  filter (fun n => match n with FunctionDef _ _ _ _ _ _ => true | _ => false end)
    (walk node).

(** Lines 160-162, for one element of [methods]. *)
Definition check_method (method : node) (class_issues : list string)
  : list string :=
  match method with
  | FunctionDef name margs _ _ _ _ =>
      let args := map arg_arg (arguments_args margs) in
      if (0 <? List.length args) && negb (String.eqb (nth 0 args "") "self")
      then class_issues ++ [issue_message name]
      else class_issues
  | _ => class_issues      (* [methods] holds [FunctionDef] nodes only *)
  end.

(** Lines 155-162. *)
Definition collect_class_issues (tree : node) : list string :=
  for_loop (walk tree)
    (fun node class_issues =>
       match node with
       | ClassDef _ _ _ _ _ _ =>
           let methods := function_defs node in
           for_loop methods check_method class_issues
       | _ => class_issues
       end)
    [].

Section Run.

Variable ast_parse : string -> M node.

(** The body of the [try] block, lines 137-169. *)
Definition run_body (code : string) : M pyval :=
  let quality_checks := quality_checks code in
  let anti_patterns := anti_patterns code in
  tree <- ast_parse code ;;
  let class_issues := collect_class_issues tree in
  ret (VDict [("quality_checks", quality_checks);
              ("anti_patterns", anti_patterns);
              ("class_issues", VList (map VStr class_issues));
              ("success", VBool true)]).

Definition _run (code : string) : pyval := try_except (run_body code).

End Run.

End SolutionValidator.

(* ================================================================== *)
(** * [class Debugger]

    Source: [src/debugger/crew.py].  The agents, the tasks and the crew
    are objects of the [crewai] library: building them and running the crew
    are parameters.  The two readings of the clock, in [_validate_inputs]
    and in [_format_results], are parameters too. *)

Module Debugger.
Import Text Py.

(** A [Dict[str, Any]]. *)
Definition dict : Type := list (string * pyval).

(** [k in d] *)
Definition dict_has (k : string) (d : dict) : bool :=
  match assoc k d with Some _ => true | None => false end.

(** [d[k] = v]: the value of an existing key is replaced where the key
    stands, a new key goes to the end. *)
Fixpoint dict_set (k : string) (v : pyval) (d : dict) : dict :=
  match d with
  | [] => [(k, v)]
  | (k', v') :: d' =>
      if String.eqb k k' then (k', v) :: d' else (k', v') :: dict_set k v d'
  end.

Definition NL : string := String LF "".

(** Line 19. *)
Definition required_fields : list string :=
  ["code_issue"; "code_context"; "project_path"].

(** Line 22: [ValueError] with the name of the field. *)
Definition missing_field (field : string) : exc :=
  Exc "ValueError" (field ++ " is required").

(** [_validate_inputs], lines 14-26; [now] is
    [datetime.now().isoformat()].  The source writes the time stamp into
    the dictionary it was given and returns that same object; the value
    returned here is that object after the call. *)
Definition _validate_inputs (now : string) (inputs : option dict)
  : M (option dict) :=
  match inputs with
  | None => ret None
  | Some inputs =>
      _ <- for_each required_fields
             (fun field (_ : unit) =>
                if negb (dict_has field inputs)
                then raise (missing_field field)
                else ret tt)
             tt ;;
      ret (Some (dict_set "timestamp" (VStr now) inputs))
  end.

(** [_format_results], lines 28-41; [now] is
    [datetime.now().isoformat()]. *)
Definition report_head : string :=
  NL ++ "# Debugging Analysis Results" ++ NL ++ "Generated on: ".
Definition report_middle : string := NL ++ NL ++ "## Code Issue" ++ NL.
Definition report_tail : string :=
  NL ++ NL ++ "## Analysis Files" ++ NL ++
  "- Root Cause Analysis: output/root_cause_analysis.md" ++ NL ++
  "- Solution Proposals: output/solution_proposals.md" ++ NL ++
  "- Solution Evaluation: output/solution_evaluation.md" ++ NL.

Definition _format_results (now : string) (result : string) : string :=
  report_head ++ now ++ report_middle ++ result ++ report_tail.

(** The [crewai] side of [run]: [new_crew] stands for [_create_agents()],
    [_create_tasks()] and [Crew(...)], lines 132-141, and [kickoff] for
    [crew.kickoff(inputs=...)], whose result is taken as the text an
    f-string makes of it. *)
Record crew : Type :=
  { new_crew : M unit;
    kickoff : option dict -> M string }.

(** [run], lines 127-144; [t_validate] and [t_format] are the two
    readings of the clock. *)
Definition run (c : crew) (t_validate t_format : string)
    (inputs : option dict) : M string :=
  validated_inputs <- _validate_inputs t_validate inputs ;;
  _ <- new_crew c ;;
  result <- kickoff c validated_inputs ;;
  ret (_format_results t_format result).

End Debugger.

(* ================================================================== *)
(** * The command line

    Source: [src/debugger/main.py].  A run of one of its functions is a
    list of the things it does that can be seen from outside, in order,
    and the way it ends: by returning, by an exception that leaves the
    function, or by [sys.exit].  An event of a call outside the file says
    that the call was made; whether it returned or raised is in what
    follows.  [print] and [traceback.print_exc] are taken to return, and
    what is raised to be an instance of [Exception]. *)

Module Main.
Import Text Py Debugger.

Inductive event : Type :=
| Print (text : string)                       (* print(text) *)
| PrintExc (e : exc)                          (* traceback.print_exc() *)
| Makedirs (path : string)                    (* os.makedirs(path, exist_ok=True) *)
| WriteFile (path content : string)
    (* the with statement is entered: open(path, 'w') is called, to write
       content *)
| CrewTrain (n : Z) (filename : string) (inputs : dict)
| CrewReplay (task_id : string)
| CrewTest (n : Z) (model : string) (inputs : dict).

Inductive ending (A : Type) : Type :=
| Returned (a : A)
| Raised (e : exc)
| Exited (status : Z).                        (* sys.exit(status) *)

Arguments Returned {A} a.
Arguments Raised {A} e.
Arguments Exited {A} status.

Definition Proc (A : Type) : Type := (list event * ending A)%type.

Definition pure {A : Type} (a : A) : Proc A := ([], Returned a).
Definition emit (ev : event) : Proc unit := ([ev], Returned tt).
Definition exit {A : Type} (status : Z) : Proc A := ([], Exited status).

Definition then_ {A B : Type} (p : Proc A) (k : A -> Proc B) : Proc B :=
  match snd p with
  | Returned a => (fst p ++ fst (k a), snd (k a))
  | Raised e => (fst p, Raised e)
  | Exited status => (fst p, Exited status)
  end.

(** A call of something outside the file: it is seen, then returns or
    raises. *)
Definition lift {A : Type} (c : M A) : Proc A :=
  match c with
  | inr a => ([], Returned a)
  | inl e => ([], Raised e)
  end.

Definition call {A : Type} (ev : event) (c : M A) : Proc A :=
  then_ (emit ev) (fun _ => lift c).

(** [try: body except Exception as e: handler(e)]; [SystemExit] is no
    [Exception] and passes through. *)
Definition try_ {A : Type} (body : Proc A) (handler : exc -> Proc A)
  : Proc A :=
  match snd body with
  | Raised e => (fst body ++ fst (handler e), snd (handler e))
  | _ => body
  end.

(** What the functions find around them. *)
Record world : Type :=
  { argv : list string;                        (* sys.argv *)
    cwd : M string;        (* str(Path(os.getcwd())), which can raise *)
    py_int : string -> M Z;                    (* int(s) *)
    the_crew : crew;
    crew_train : Z -> string -> dict -> M unit;
    crew_replay : string -> M unit;
    crew_test : Z -> string -> dict -> M unit;
    makedirs : string -> M unit;
    write_file : string -> string -> M unit;
      (* with open(path, 'w') as f: f.write(content), which returns when
         opening, writing and closing did *)
    t_validate : string;                       (* datetime.now().isoformat() *)
    t_format : string;
    t_stamp : string;          (* datetime.now().strftime("%Y%m%d_%H%M%S") *)
    is_ValueError : exc -> bool }.             (* isinstance(e, ValueError) *)

(** [sys.argv[i]] *)
Definition argv_at (w : world) (i : nat) : M string :=
  match nth_error (argv w) i with
  | Some s => ret s
  | None => raise (Exc "IndexError" "list index out of range")
  end.

(** The handler of lines 83-87, 108-112, 128-132 and 153-157. *)
Definition report_error {A : Type} (e : exc) : Proc A :=
  then_ (emit (Print (NL ++ "Error Details: " ++ exc_msg e))) (fun _ =>
  then_ (emit (Print (NL ++ "Stacktrace:"))) (fun _ =>
  then_ (emit (PrintExc e)) (fun _ =>
  exit 1%Z))).

(** Lines 97-101 and 142-146, [project_path] being the working directory
    that was read. *)
Definition sample_inputs (project_path : string) : dict :=
  [("code_issue", VStr "Sample code issue with error handling");
   ("code_context", VStr "def sample(): pass");
   ("project_path", VStr project_path)].

(** [train], lines 89-112. *)
Definition train (w : world) : Proc unit :=
  then_ (if List.length (argv w) <? 3
         then then_ (emit (Print "Usage: python -m debugger.main train <n_iterations> <filename>"))
                (fun _ => exit 1%Z)
         else pure tt) (fun _ =>
  then_ (lift (cwd w)) (fun project_path =>
  let inputs := sample_inputs project_path in
  try_
    (then_ (lift (new_crew (the_crew w))) (fun _ =>
     then_ (lift (bind (argv_at w 1) (py_int w))) (fun n =>
     then_ (lift (argv_at w 2)) (fun filename =>
     call (CrewTrain n filename inputs) (crew_train w n filename inputs)))))
    report_error)).

(** [replay], lines 114-132. *)
Definition replay (w : world) : Proc unit :=
  then_ (if List.length (argv w) <? 2
         then then_ (emit (Print "Usage: python -m debugger.main replay <task_id>"))
                (fun _ => exit 1%Z)
         else pure tt) (fun _ =>
  try_
    (then_ (lift (new_crew (the_crew w))) (fun _ =>
     then_ (lift (argv_at w 1)) (fun task_id =>
     call (CrewReplay task_id) (crew_replay w task_id))))
    report_error).

(** [test], lines 134-157. *)
Definition test (w : world) : Proc unit :=
  then_ (if List.length (argv w) <? 3
         then then_ (emit (Print "Usage: python -m debugger.main test <n_iterations> <model_name>"))
                (fun _ => exit 1%Z)
         else pure tt) (fun _ =>
  then_ (lift (cwd w)) (fun project_path =>
  let inputs := sample_inputs project_path in
  try_
    (then_ (lift (new_crew (the_crew w))) (fun _ =>
     then_ (lift (bind (argv_at w 1) (py_int w))) (fun n =>
     then_ (lift (argv_at w 2)) (fun model =>
     call (CrewTest n model inputs) (crew_test w n model inputs)))))
    report_error)).

(** Lines 23-37 and 40-48, the texts of [run]. *)
Definition sample_code : string :=
  NL ++
  "    class DataProcessor:" ++ NL ++
  "        cache = []  # Global mutable state" ++ NL ++
  "        " ++ NL ++
  "        def process_data(self, data=[]):  # Mutable default argument" ++ NL ++
  "            try:" ++ NL ++
  "                DataProcessor.cache.append(data)  # Modifying global state" ++ NL ++
  "                result = data.process()  # Potential attribute error" ++ NL ++
  "                return result" ++ NL ++
  "            except:  # Bare except clause" ++ NL ++
  "                print(" ++ String (ascii_of_nat 34) "Error occurred"
     ++ String (ascii_of_nat 34) ")  # Poor error handling" ++ NL ++
  "                " ++ NL ++
  "        def get_cache():  # Missing self parameter" ++ NL ++
  "            return DataProcessor.cache" ++ NL ++
  "    ".

Definition code_issue : string :=
  NL ++
  "        The code has multiple issues:" ++ NL ++
  "        1. Uses mutable default argument" ++ NL ++
  "        2. Modifies global state" ++ NL ++
  "        3. Has bare except clause" ++ NL ++
  "        4. Poor error handling" ++ NL ++
  "        5. Missing self parameter" ++ NL ++
  "        6. Potential attribute errors" ++ NL ++
  "        ".

Definition run_inputs (project_path : string) : dict :=
  [("code_issue", VStr code_issue);
   ("code_context", VStr sample_code);
   ("project_path", VStr project_path)].

(** ["=" * 50] *)
Fixpoint repeat_string (s : string) (n : nat) : string :=
  match n with
  | O => ""
  | S n' => s ++ repeat_string s n'
  end.

Definition rule : string := repeat_string "=" 50.

(** Line 72. *)
Definition final_output_path (w : world) : string :=
  "output/debug_result_" ++ t_stamp w ++ ".md".

(** [run], lines 19-87.  The inputs are built, and the working directory
    read, before the [try] is entered. *)
Definition run (w : world) : Proc unit :=
  then_ (lift (cwd w)) (fun project_path =>
  let inputs := run_inputs project_path in
  try_
    (then_ (call (Makedirs "output") (makedirs w "output")) (fun _ =>
     then_ (emit (Print (NL ++ "Starting code analysis..."))) (fun _ =>
     then_ (emit (Print rule)) (fun _ =>
     then_ (emit (Print (NL ++ "Code to analyze:"))) (fun _ =>
     then_ (emit (Print sample_code)) (fun _ =>
     then_ (emit (Print (NL ++ "Identified issues:"))) (fun _ =>
     then_ (emit (Print code_issue)) (fun _ =>
     then_ (emit (Print rule)) (fun _ =>
     then_ (lift (Debugger.run (the_crew w) (t_validate w) (t_format w)
                    (Some inputs))) (fun result =>
     let path := final_output_path w in
     then_ (call (WriteFile path result) (write_file w path result)) (fun _ =>
     then_ (emit (Print (NL ++ "Debugging Analysis Results:"))) (fun _ =>
     then_ (emit (Print result)) (fun _ =>
     emit (Print (NL ++ "Results saved to: " ++ path)))))))))))))))
    (fun e =>
       if is_ValueError w e
       then then_ (emit (Print (NL ++ "Validation Error: " ++ exc_msg e)))
              (fun _ => exit 1%Z)
       else report_error e)).

(** The block under [if __name__ == "__main__":], lines 159-172. *)
Definition main_block (w : world) : Proc unit :=
  if 1 <? List.length (argv w) then
    then_ (lift (argv_at w 1)) (fun command =>
      if String.eqb command "train" then train w
      else if String.eqb command "replay" then replay w
      else if String.eqb command "test" then test w
      else then_ (emit (Print ("Unknown command: " ++ command)))
             (fun _ => exit 1%Z))
  else run w.

End Main.

(* ================================================================== *)
(** * Sample programs

    Source texts with the trees CPython's [ast.parse] builds for them, a
    parser that knows these texts and a printer for the expressions that
    occur in them.  They instantiate the parameters of the tools where a
    statement is checked on a concrete program. *)

Module Samples.
Import Text Ast Py.

Definition nl : string := String LF "".
Definition quoted (s : string) : string :=
  String SolutionValidator.dquote (s ++ String SolutionValidator.dquote "").

Definition no_arguments : arguments := Arguments [] [] None [] [] None [].
Definition positional (names : list string) (defaults : list node)
  : arguments :=
  Arguments [] (map (fun n => Arg n None) names) None [] [] None defaults.
Definition Pass : node := Other "Pass" [].
Definition empty_list : node := Other "List" [node_of_ctx Load].

(** [MAX_SIZE = 10] *)
Definition constant_src : string := "MAX_SIZE = 10".
Definition constant_ast : node :=
  Module [Assign [Name "MAX_SIZE" Store] (Constant (KInt 10))].

(** [counter = 0] *)
Definition counter_src : string := "counter = 0".
Definition counter_ast : node :=
  Module [Assign [Name "counter" Store] (Constant (KInt 0))].

(** [a = b = 1] *)
Definition chained_src : string := "a = b = 1".
Definition chained_ast : node :=
  Module [Assign [Name "a" Store; Name "b" Store] (Constant (KInt 1))].

(** A method that defines a local function. *)
Definition nested_src : string :=
  "class C:" ++ nl ++
  "    def m(self):" ++ nl ++
  "        def inner():" ++ nl ++
  "            pass".
Definition nested_ast : node :=
  Module
    [ClassDef "C" [] []
       [FunctionDef "m" (positional ["self"] [])
          [FunctionDef "inner" no_arguments [Pass] [] None []]
          [] None []]
       [] []].

(** A method without parameters. *)
Definition get_src : string :=
  "class C:" ++ nl ++ "  def get():" ++ nl ++ "    return 1".
Definition get_ast : node :=
  Module
    [ClassDef "C" [] []
       [FunctionDef "get" no_arguments
          [Other "Return" [Constant (KInt 1)]] [] None []]
       [] []].

(** A method whose only parameter is the starred [args]. *)
Definition vararg_src : string :=
  "class C:" ++ nl ++ "    def m(" ++ "*args):" ++ nl ++ "        pass".
Definition vararg_arguments : arguments :=
  Arguments [] [] (Some (Arg "args" None)) [] [] None [].
Definition vararg_method : node :=
  FunctionDef "m" vararg_arguments [Pass] [] None [].
Definition vararg_ast : node :=
  Module [ClassDef "C" [] [] [vararg_method] [] []].

(** A coroutine method whose first parameter is not [self]. *)
Definition async_src : string :=
  "class C:" ++ nl ++ "    async def m(x):" ++ nl ++ "        pass".
Definition async_method : node :=
  AsyncFunctionDef "m" (positional ["x"] []) [Pass] [] None [].
Definition async_ast : node :=
  Module [ClassDef "C" [] [] [async_method] [] []].

(** [def f(data=[]): pass] *)
Definition one_default_src : string := "def f(data=[]): pass".
Definition one_default_ast : node :=
  Module [FunctionDef "f" (positional ["data"] [empty_list]) [Pass] [] None []].

(** [def f(a=[], b=[]): pass] *)
Definition two_defaults_src : string := "def f(a=[], b=[]): pass".
Definition two_defaults_ast : node :=
  Module [FunctionDef "f" (positional ["a"; "b"] [empty_list; empty_list])
            [Pass] [] None []].

(** An assignment of the string literal [except:] to [x]. *)
Definition literal_src : string := "x = " ++ quoted "except:".
Definition literal_ast : node :=
  Module [Assign [Name "x" Store] (Constant (KStr "except:"))].

(** A text that is no Python program. *)
Definition malformed_src : string := "def f(:".
Definition malformed_error : exc :=
  Exc "SyntaxError" "invalid syntax (<unknown>, line 1)".

Definition programs : list (string * node) :=
  [(constant_src, constant_ast); (counter_src, counter_ast);
   (chained_src, chained_ast); (nested_src, nested_ast);
   (get_src, get_ast); (vararg_src, vararg_ast); (async_src, async_ast);
   (one_default_src, one_default_ast);
   (two_defaults_src, two_defaults_ast); (literal_src, literal_ast)].

Fixpoint lookup (code : string) (table : list (string * node))
  : option node :=
  match table with
  | [] => None
  | (src, tree) :: table' =>
      if String.eqb code src then Some tree else lookup code table'
  end.

(** [ast.parse] on the sample texts; no other text is ever given to it. *)
Definition parse (code : string) : M node :=
  match lookup code programs with
  | Some tree => ret tree
  | None => raise malformed_error
  end.

(** [ast.unparse] on names, integers and strings without quotes. *)
Definition unparse (n : node) : M string :=
  match n with
  | Name id _ => ret id
  | Constant (KInt z) => ret (NilZero.string_of_int (Z.to_int z))
  | Constant (KStr s) =>
      ret (String SolutionValidator.squote
             (s ++ String SolutionValidator.squote ""))
  | _ => raise (Exc "NotImplementedError" "no printer for this node")
  end.

(** Hosts for the dependency scan. *)
Definition pip_ok : DependencyAnalyzer.CompletedProcess :=
  {| DependencyAnalyzer.returncode := 0%Z;
     DependencyAnalyzer.stdout := "[]";
     DependencyAnalyzer.stderr := "" |}.

Definition pip_exit_1 : DependencyAnalyzer.CompletedProcess :=
  {| DependencyAnalyzer.returncode := 1%Z;
     DependencyAnalyzer.stdout := "";
     DependencyAnalyzer.stderr := "ERROR: unknown option" |}.

Definition pip_missing : exc :=
  Exc "FileNotFoundError" "[Errno 2] No such file or directory: 'pip'".

(** One project directory, [/proj], that holds [requirements.txt]. *)
Definition proj_exists (p f : string) : M bool :=
  ret (String.eqb p "/proj" && String.eqb f "requirements.txt").
Definition proj_is_dir (p : string) : bool := String.eqb p "/proj".

Definition host_ok : DependencyAnalyzer.host :=
  {| DependencyAnalyzer.pip_list := DependencyAnalyzer.Returns pip_ok;
     DependencyAnalyzer.path_exists := proj_exists;
     DependencyAnalyzer.is_readable_dir := proj_is_dir |}.

Definition host_exit_1 : DependencyAnalyzer.host :=
  {| DependencyAnalyzer.pip_list := DependencyAnalyzer.Returns pip_exit_1;
     DependencyAnalyzer.path_exists := proj_exists;
     DependencyAnalyzer.is_readable_dir := proj_is_dir |}.

Definition host_no_pip : DependencyAnalyzer.host :=
  {| DependencyAnalyzer.pip_list := DependencyAnalyzer.Raises pip_missing;
     DependencyAnalyzer.path_exists := proj_exists;
     DependencyAnalyzer.is_readable_dir := proj_is_dir |}.

Definition host_hung : DependencyAnalyzer.host :=
  {| DependencyAnalyzer.pip_list := DependencyAnalyzer.Blocks;
     DependencyAnalyzer.path_exists := proj_exists;
     DependencyAnalyzer.is_readable_dir := proj_is_dir |}.

End Samples.

(* ================================================================== *)
(** * Sample inputs, crews and command lines *)

Module SamplesMore.
Import Text Ast Py Debugger Main.

(** Two imports and a call of a method inside a call of a function:
    [import os], [import sys as s], [print(os.getcwd())]. *)
Definition imports_src : string :=
  "import os" ++ Samples.nl ++ "import sys as s" ++ Samples.nl
    ++ "print(os.getcwd())".
Definition imports_ast : node :=
  Module
    [Import [{| alias_name := "os"; asname := None |}];
     Import [{| alias_name := "sys"; asname := Some "s" |}];
     Other "Expr"
       [Call (Name "print" Load)
          [Call (Attribute (Name "os" Load) "getcwd" Load) [] []] []]].

(** A class whose method takes [x] first. *)
Definition first_x_src : string :=
  "class C:" ++ Samples.nl ++ "    def m(x):" ++ Samples.nl
    ++ "        pass".
Definition first_x_ast : node :=
  Module
    [ClassDef "C" [] []
       [FunctionDef "m" (Samples.positional ["x"] []) [Samples.Pass] []
          None []]
       [] []].

(** [ast.parse] on these texts and on those of [Samples.programs]. *)
Definition parse (code : string) : M node :=
  if String.eqb code imports_src then ret imports_ast
  else if String.eqb code first_x_src then ret first_x_ast
  else Samples.parse code.

(** [ast.unparse] on [import] statements, and as [Samples.unparse]
    elsewhere. *)
Definition alias_text (a : alias) : string :=
  match asname a with
  | Some n => alias_name a ++ " as " ++ n
  | None => alias_name a
  end.

Definition unparse (n : node) : M string :=
  match n with
  | Import names =>
      ret ("import " ++ String.concat ", " (map alias_text names))%string
  | _ => Samples.unparse n
  end.

(** A host on which the probe for [pyproject.toml] is refused. *)
Definition denied : exc :=
  Exc "PermissionError" "[Errno 13] Permission denied: '/locked/pyproject.toml'".

Definition locked_exists (p f : string) : M bool :=
  if String.eqb f "pyproject.toml" then raise denied
  else ret (String.eqb f "requirements.txt").

Definition host_locked : DependencyAnalyzer.host :=
  {| DependencyAnalyzer.pip_list := DependencyAnalyzer.Returns Samples.pip_ok;
     DependencyAnalyzer.path_exists := locked_exists;
     DependencyAnalyzer.is_readable_dir := fun _ => true |}.

(** Inputs with the three required fields, and inputs without the
    second and third. *)
Definition full_inputs : dict :=
  [("code_issue", VStr "crash"); ("code_context", VStr "x = 1");
   ("project_path", VStr "/proj")].

Definition partial_inputs : dict := [("code_issue", VStr "crash")].

(** A crew that answers. *)
Definition crew_ok : crew :=
  {| new_crew := ret tt; kickoff := fun _ => ret "fixed" |}.

(** [int] on runs of ASCII digits; every other text is refused. *)
Fixpoint digits_value (acc : Z) (s : string) : option Z :=
  match s with
  | EmptyString => Some acc
  | String c s' =>
      let n := nat_of_ascii c in
      if (48 <=? n) && (n <=? 57)
      then digits_value (10 * acc + Z.of_nat (n - 48))%Z s'
      else None
  end.

Definition int_of (s : string) : M Z :=
  match s with
  | EmptyString => raise (Exc "ValueError" "invalid literal for int()")
  | _ =>
      match digits_value 0%Z s with
      | Some z => ret z
      | None => raise (Exc "ValueError" "invalid literal for int()")
      end
  end.

(** A machine on which everything outside works, started with the given
    command line. *)
Definition machine (args : list string) : world :=
  {| argv := args;
     cwd := ret "/proj";
     py_int := int_of;
     the_crew := crew_ok;
     crew_train := fun _ _ _ => ret tt;
     crew_replay := fun _ => ret tt;
     crew_test := fun _ _ _ => ret tt;
     makedirs := fun _ => ret tt;
     write_file := fun _ _ => ret tt;
     t_validate := "2025-01-01T10:00:00";
     t_format := "2025-01-01T10:05:00";
     t_stamp := "20250101_100500";
     is_ValueError := fun e => String.eqb (exc_class e) "ValueError" |}.

(** The same machine started in a directory that has since been
    removed, and the same machine with an output directory that cannot be
    written to. *)
Definition no_cwd : exc :=
  Exc "FileNotFoundError" "[Errno 2] No such file or directory".

Definition machine_without_cwd (args : list string) : world :=
  {| argv := args;
     cwd := raise no_cwd;
     py_int := int_of;
     the_crew := crew_ok;
     crew_train := fun _ _ _ => ret tt;
     crew_replay := fun _ => ret tt;
     crew_test := fun _ _ _ => ret tt;
     makedirs := fun _ => ret tt;
     write_file := fun _ _ => ret tt;
     t_validate := "2025-01-01T10:00:00";
     t_format := "2025-01-01T10:05:00";
     t_stamp := "20250101_100500";
     is_ValueError := fun e => String.eqb (exc_class e) "ValueError" |}.

Definition read_only : exc :=
  Exc "PermissionError" "[Errno 13] Permission denied".

Definition machine_read_only (args : list string) : world :=
  {| argv := args;
     cwd := ret "/proj";
     py_int := int_of;
     the_crew := crew_ok;
     crew_train := fun _ _ _ => ret tt;
     crew_replay := fun _ => ret tt;
     crew_test := fun _ _ _ => ret tt;
     makedirs := fun _ => ret tt;
     write_file := fun _ _ => raise read_only;
     t_validate := "2025-01-01T10:00:00";
     t_format := "2025-01-01T10:05:00";
     t_stamp := "20250101_100500";
     is_ValueError := fun e => String.eqb (exc_class e) "ValueError" |}.

(** A host on which pip exits with status 0 after writing bytes that are
    no valid text, so that the call of [subprocess.run] raises. *)
Definition undecodable : exc :=
  Exc "UnicodeDecodeError"
    "'utf-8' codec can't decode byte 0xff in position 0: invalid start byte".

Definition host_undecodable : DependencyAnalyzer.host :=
  {| DependencyAnalyzer.pip_list := DependencyAnalyzer.Raises undecodable;
     DependencyAnalyzer.path_exists := Samples.proj_exists;
     DependencyAnalyzer.is_readable_dir := Samples.proj_is_dir |}.

End SamplesMore.

(* ================================================================== *)
(** * Vocabulary of the statements

    Closed forms and predicates in which the theorems below describe what
    the tools compute. *)

Module Spec.
Import Text Re Ast Py.

(** ** Texts *)

(** A position is the start of a line when nothing or a line feed comes
    before it. *)
Definition line_start (pre : string) : Prop :=
  pre = "" \/ exists p, pre = (p ++ String LF "")%string.

(** All characters of a word satisfy a test. *)
Fixpoint all_chars (f : ascii -> bool) (s : string) : bool :=
  match s with
  | EmptyString => true
  | String c s' => f c && all_chars f s'
  end.

(** An upper-case ASCII letter or the underscore. *)
Definition upper_or_underscore (c : ascii) : bool :=
  ((code "A" <=? code c) && (code c <=? code "Z")) || Ascii.eqb c "_".

(** Any character but the line feed. *)
Definition not_lf (c : ascii) : bool := negb (Ascii.eqb c LF).

(** ** Trees *)

(** Size of a queue of [walk]. *)
Definition tsize (l : list node) : nat := list_sum (map size l).

(** The nodes of a tree: the root and, with every node, its children. *)
Inductive below (root : node) : node -> Prop :=
| below_root : below root root
| below_child n c :
    below root n -> In c (iter_child_nodes n) -> below root c.


(** The positional-or-keyword parameters start with a name other than
    [self]. *)
Definition first_not_self (a : arguments) : Prop :=
  exists first rest,
    arguments_args a = first :: rest /\ arg_arg first <> "self".

Definition is_handler (n : node) : bool :=
  match n with
  | Other cls _ => String.eqb cls "ExceptHandler"
  | _ => false
  end.

(** ** [CodeAnalysisTool] *)

(** The nodes [_run] hands to [ast.unparse]: the import statements, the
    receivers of method calls and the values of assignments that have a
    plain name among their targets. *)
Inductive printed (tree : node) : node -> Prop :=
| printed_import names :
    In (Import names) (walk tree) -> printed tree (Import names)
| printed_import_from module names level :
    In (ImportFrom module names level) (walk tree) ->
    printed tree (ImportFrom module names level)
| printed_receiver value attr ctx args keywords :
    In (Call (Attribute value attr ctx) args keywords) (walk tree) ->
    printed tree value
| printed_value targets value id ctx :
    In (Assign targets value) (walk tree) -> In (Name id ctx) targets ->
    printed tree value.

Section Unparse.

Variable ast_unparse : node -> M string.

(** The text [ast.unparse] gives for a node it accepts. *)
Definition text_of (n : node) : string :=
  match ast_unparse n with
  | inr s => s
  | inl _ => ""
  end.

Definition unparse_accepts (n : node) : Prop :=
  exists s, ast_unparse n = inr s.

(** The entries one target of an assignment, one [Assign] node and a whole
    tree add to [variables]. *)
Definition target_entries (value : node) (target : node) : list pyval :=
  match target with
  | Name id _ => [VDict [("name", VStr id); ("value", VStr (text_of value))]]
  | _ => []
  end.

Definition node_entries (n : node) : list pyval :=
  match n with
  | Assign targets value => flat_map (target_entries value) targets
  | _ => []
  end.

Definition variable_entries (tree : node) : list pyval :=
  flat_map node_entries (walk tree).

End Unparse.

(** ** [SolutionValidator] *)

(** The finding one element of [methods] adds, and the findings of one
    node of the tree. *)
Definition method_issue (method : node) : list string :=
  SolutionValidator.check_method method [].

Definition class_issues_of (n : node) : list string :=
  match n with
  | ClassDef _ _ _ _ _ _ =>
      flat_map method_issue (SolutionValidator.function_defs n)
  | _ => []
  end.

(** ** [DependencyAnalyzer] *)

(** The probe for [file] under [project_path] answers that it exists. *)
Definition present (h : DependencyAnalyzer.host) (project_path file : string)
  : bool :=
  match DependencyAnalyzer.path_exists h project_path file with
  | inr b => b
  | inl _ => false
  end.

(** A returned dictionary reports failure. *)
Definition failed (result : pyval) : Prop :=
  dict_get "success" result = Some (VBool false).

End Spec.

(* ================================================================== *)
(** * Further vocabulary: the remaining facts and checks of the tools *)

Module SpecTools.
Import Text Re Ast Py Spec.

Section Unparse.

Variable ast_unparse : node -> M string.

(** What one node adds to [imports], [function_calls] and [attributes]. *)
Definition import_text (n : node) : list string :=
  match n with
  | Import _ | ImportFrom _ _ _ => [text_of ast_unparse n]
  | _ => []
  end.

Definition call_name (n : node) : list string :=
  match n with
  | Call (Name id _) _ _ => [id]
  | _ => []
  end.

Definition call_attribute (n : node) : list string :=
  match n with
  | Call (Attribute value attr _) _ _ =>
      [(text_of ast_unparse value ++ "." ++ attr)%string]
  | _ => []
  end.

End Unparse.

Definition is_import (n : node) : bool :=
  match n with
  | Import _ | ImportFrom _ _ _ => true
  | _ => false
  end.

(** The entry of one class in [classes]. *)
Definition class_entry (n : node) : list pyval :=
  match n with
  | ClassDef name _ _ _ _ _ =>
      [VDict [("name", VStr name);
              ("methods", VList (map VStr (CodeAnalysisTool.methods_of n)))]]
  | _ => []
  end.

(** An ASCII letter. *)
Definition ascii_letter (c : ascii) : bool :=
  ((code "A" <=? code c) && (code c <=? code "Z"))
  || ((code "a" <=? code c) && (code c <=? code "z")).

End SpecTools.

Module SpecMain.
Import Main.

(** A run that never calls [sys.exit]. *)
Definition no_exit {A : Type} (p : Proc A) : Prop :=
  forall status, snd p <> Exited status.


End SpecMain.

(* ================================================================== *)
(** * Facts about texts *)

Module TextFacts.
Import Text.

Lemma append_nil_r (s : string) : (s ++ "")%string = s.
Proof. induction s as [|c s IH]; simpl; [reflexivity | now rewrite IH]. Qed.

Lemma append_assoc (a b c : string) :
  ((a ++ b) ++ c)%string = (a ++ (b ++ c))%string.
Proof. induction a as [|x a IH]; simpl; [reflexivity | now rewrite IH]. Qed.

Lemma append_eq_nil (a b : string) :
  (a ++ b)%string = "" -> a = "" /\ b = "".
Proof. destruct a; simpl; [auto | discriminate]. Qed.

Lemma startswith_spec (p s : string) :
  startswith p s = true <-> exists t, s = (p ++ t)%string.
Proof.
  revert s; induction p as [|a p IH]; intros s; simpl.
  - split; [intros _; now exists s | reflexivity].
  - destruct s as [|b s].
    + split; [discriminate | intros [t Ht]; discriminate].
    + rewrite andb_true_iff, Ascii.eqb_eq, IH. split.
      * intros [-> [t ->]]. now exists t.
      * intros [t Ht]. injection Ht as -> ->. split; [reflexivity | now exists t].
Qed.

(** [needle in hay] holds exactly when [hay] can be cut around a copy of
    [needle]. *)
Lemma str_in_spec (needle hay : string) :
  str_in needle hay = true <->
  exists pre post, hay = (pre ++ needle ++ post)%string.
Proof.
  induction hay as [|c hay IH].
  - cbn [str_in]. rewrite orb_false_r, startswith_spec. split.
    + intros [t Ht]. now exists "", t.
    + intros (pre & post & H). symmetry in H.
      apply append_eq_nil in H as [-> H]. exists post. now symmetry.
  - cbn [str_in]. rewrite orb_true_iff, startswith_spec, IH. split.
    + intros [[t Ht] | (pre & post & H)].
      * now exists "", t.
      * exists (String c pre), post. simpl. now rewrite H.
    + intros (pre & post & H). destruct pre as [|d pre]; simpl in H.
      * left. now exists post.
      * right. injection H as _ H. now exists pre, post.
Qed.

End TextFacts.

(* ================================================================== *)
(** * Correctness of the matcher *)

Module ReFacts.
Import Text Re Spec TextFacts.

Lemma matches_cat (r1 r2 : regex) (m : string) :
  matches (Cat r1 r2) m <->
  exists m1 m2, m = (m1 ++ m2)%string /\ matches r1 m1 /\ matches r2 m2.
Proof.
  split.
  - intros H. inversion H; subst. eauto.
  - intros (m1 & m2 & -> & H1 & H2). now constructor.
Qed.

Lemma matches_alt (r1 r2 : regex) (m : string) :
  matches (Alt r1 r2) m <-> matches r1 m \/ matches r2 m.
Proof.
  split.
  - intros H. inversion H; subst; auto.
  - intros [H|H]; [now apply MAltL | now apply MAltR].
Qed.

Lemma nullable_spec (r : regex) : nullable r = true <-> matches r "".
Proof.
  induction r as [| |cs|r1 IH1 r2 IH2|r1 IH1 r2 IH2|r IH]; simpl.
  - split; [discriminate | intros H; inversion H].
  - split; [constructor | reflexivity].
  - split; [discriminate | intros H; inversion H].
  - rewrite andb_true_iff, IH1, IH2. split.
    + intros [H1 H2]. exact (MCat H1 H2).
    + intros H. apply matches_cat in H as (s1 & s2 & E & H1 & H2).
      symmetry in E. apply append_eq_nil in E as [-> ->]. now split.
  - now rewrite orb_true_iff, IH1, IH2, matches_alt.
  - split; [constructor | reflexivity].
Qed.

(** A match of [r1 r2] on a non-empty word starts in [r1], or [r1] matches
    the empty word and the match starts in [r2]. *)
Lemma matches_cat_cons (r1 r2 : regex) (c : ascii) (s : string) :
  matches (Cat r1 r2) (String c s) ->
  (exists s1 s2, s = (s1 ++ s2)%string /\ matches r1 (String c s1)
                 /\ matches r2 s2)
  \/ (matches r1 "" /\ matches r2 (String c s)).
Proof.
  intros H. apply matches_cat in H as (s1 & s2 & E & H1 & H2).
  destruct s1 as [|d s1]; simpl in E.
  - right. subst. now split.
  - left. injection E as -> ->. now exists s1, s2.
Qed.

(** A match of [r*] on a non-empty word starts with a non-empty match of
    [r]. *)
Lemma matches_star_cons (r : regex) (c : ascii) (s : string) :
  matches (Star r) (String c s) ->
  exists s1 s2, s = (s1 ++ s2)%string /\ matches r (String c s1)
                /\ matches (Star r) s2.
Proof.
  intros H. remember (Star r) as r' eqn:Er. remember (String c s) as w eqn:Ew.
  revert s Ew.
  induction H as [| | | | | |r0 s1 s2 H1 _ H2 IH2]; intros t Ew;
    try discriminate.
  injection Er as ->. destruct s1 as [|d s1]; simpl in Ew.
  - now apply IH2.
  - injection Ew as -> <-. now exists s1, s2.
Qed.

Lemma deriv_spec (r : regex) (c : ascii) (s : string) :
  matches (deriv c r) s <-> matches r (String c s).
Proof.
  revert s.
  induction r as [| |cs|r1 IH1 r2 IH2|r1 IH1 r2 IH2|r IH]; intros s; simpl.
  - split; intros H; inversion H.
  - split; intros H; inversion H.
  - destruct (cs_mem cs c) eqn:E; split; intros H.
    + inversion H; subst. now constructor.
    + inversion H; subst. constructor.
    + inversion H.
    + inversion H; subst. congruence.
  - assert (Hcat : matches (Cat (deriv c r1) r2) s <->
              exists s1 s2, s = (s1 ++ s2)%string /\ matches r1 (String c s1)
                            /\ matches r2 s2).
    { rewrite matches_cat. split.
      - intros (s1 & s2 & -> & H1 & H2). exists s1, s2. rewrite <- IH1. auto.
      - intros (s1 & s2 & -> & H1 & H2). exists s1, s2. rewrite IH1. auto. }
    destruct (nullable r1) eqn:N.
    + split.
      * intros H. apply matches_alt in H as [H'|H'].
        -- apply Hcat in H' as (s1 & s2 & -> & H1 & H2).
           exact (MCat H1 H2).
        -- apply IH2 in H'. apply nullable_spec in N.
           exact (MCat N H').
      * intros H. apply matches_cat_cons in H as [H | [_ H]].
        -- apply MAltL. now apply Hcat.
        -- apply MAltR. now apply IH2.
    + rewrite Hcat. split.
      * intros (s1 & s2 & -> & H1 & H2). exact (MCat H1 H2).
      * intros H. apply matches_cat_cons in H as [H | [H _]]; [easy|].
        apply nullable_spec in H. congruence.
  - now rewrite !matches_alt, IH1, IH2.
  - split.
    + intros H. apply matches_cat in H as (s1 & s2 & -> & H1 & H2).
      apply IH in H1. exact (MStarS H1 H2).
    + intros H. apply matches_star_cons in H as (s1 & s2 & -> & H1 & H2).
      apply MCat; [now apply IH | easy].
Qed.

(** [match_prefix] finds a match that starts where the text starts. *)
Lemma match_prefix_spec (r : regex) (s : string) :
  match_prefix r s = true <->
  exists m post, s = (m ++ post)%string /\ matches r m.
Proof.
  revert r; induction s as [|c s IH]; intros r; cbn [match_prefix];
    rewrite orb_true_iff, nullable_spec.
  - split.
    + intros [H|H]; [now exists "", "" | discriminate].
    + intros (m & post & E & H). symmetry in E.
      apply append_eq_nil in E as [-> _]. now left.
  - rewrite IH. split.
    + intros [H | (m & post & -> & H)].
      * now exists "", (String c s).
      * exists (String c m), post. split; [reflexivity | now apply deriv_spec].
    + intros (m & post & E & H). destruct m as [|d m]; simpl in E.
      * now left.
      * injection E as -> ->. right. exists m, post.
        split; [reflexivity | now apply deriv_spec].
Qed.

(** [search] finds a match anywhere in the text. *)
Lemma search_spec (r : regex) (s : string) :
  search r s = true <->
  exists pre m post, s = (pre ++ m ++ post)%string /\ matches r m.
Proof.
  induction s as [|c s IH]; cbn [search]; rewrite orb_true_iff,
    match_prefix_spec.
  - split.
    + intros [(m & post & E & H) | H]; [now exists "", m, post | discriminate].
    + intros (pre & m & post & E & H). left. symmetry in E.
      apply append_eq_nil in E as [-> E]. now exists m, post.
  - rewrite IH. split.
    + intros [(m & post & E & H) | (pre & m & post & -> & H)].
      * now exists "", m, post.
      * now exists (String c pre), m, post.
    + intros (pre & m & post & E & H). destruct pre as [|d pre]; simpl in E.
      * left. now exists m, post.
      * injection E as -> ->. right. now exists pre, m, post.
Qed.

Lemma search_bol_from_spec (r : regex) (s : string) (bol : bool) :
  search_bol_from bol r s = true <->
  (bol = true /\ exists m post, s = (m ++ post)%string /\ matches r m)
  \/ exists pre m post, s = (pre ++ String LF "" ++ m ++ post)%string
                        /\ matches r m.
Proof.
  revert bol; induction s as [|c s IH]; intros bol; cbn [search_bol_from];
    rewrite orb_true_iff, andb_true_iff, match_prefix_spec.
  - split.
    + intros [H|H]; [now left | discriminate].
    + intros [H | (pre & m & post & E & _)]; [now left|].
      destruct pre; discriminate.
  - rewrite IH. split.
    + intros [H | [[Hc (m & post & -> & H)] | (pre & m & post & -> & H)]].
      * now left.
      * right. apply Ascii.eqb_eq in Hc as ->. now exists "", m, post.
      * right. now exists (String c pre), m, post.
    + intros [H | (pre & m & post & E & H)]; [now left|]. right.
      destruct pre as [|d pre]; simpl in E; injection E as -> ->.
      * left. split; [apply Ascii.eqb_refl | now exists m, post].
      * right. now exists pre, m, post.
Qed.

(** [search_multiline_bol] finds a match that starts at the start of a
    line. *)
Lemma search_multiline_bol_spec (r : regex) (s : string) :
  search_multiline_bol r s = true <->
  exists pre m post,
    s = (pre ++ m ++ post)%string /\ line_start pre /\ matches r m.
Proof.
  unfold search_multiline_bol. rewrite search_bol_from_spec. split.
  - intros [[_ (m & post & -> & H)] | (pre & m & post & -> & H)].
    + exists "", m, post. repeat split; [now left | easy].
    + exists (pre ++ String LF "")%string, m, post.
      rewrite append_assoc. repeat split; [right; now exists pre | easy].
  - intros (pre & m & post & -> & [-> | [p ->]] & H).
    + left. split; [reflexivity | now exists m, post].
    + right. exists p, m, post. now rewrite append_assoc.
Qed.

Lemma matches_lit (w m : string) : matches (Lit w) m <-> m = w.
Proof.
  revert m; induction w as [|c w IH]; intros m; simpl.
  - split; [intros H; now inversion H | intros ->; constructor].
  - split.
    + intros H. apply matches_cat in H as (s1 & s2 & -> & H1 & H2).
      inversion H1 as [|? ? Hc| | | | |]; subst. simpl in Hc.
      apply Ascii.eqb_eq in Hc as ->. apply IH in H2 as ->. reflexivity.
    + intros ->. apply (MCat (s1 := String c "") (s2 := w)).
      * constructor. simpl. apply Ascii.eqb_refl.
      * now apply IH.
Qed.

Lemma matches_set_star (cs : charset) (m : string) :
  matches (Star (Set_ cs)) m <-> all_chars (cs_mem cs) m = true.
Proof.
  split.
  - revert cs. induction m as [|c m IH]; intros cs H; [reflexivity|].
    apply matches_star_cons in H as (s1 & s2 & -> & H1 & H2).
    inversion H1; subst. simpl. rewrite andb_true_iff. split; [easy|].
    now apply IH.
  - induction m as [|c m IH]; simpl; intros H; [constructor|].
    apply andb_true_iff in H as [Hc Hm].
    apply (MStarS (s1 := String c "") (s2 := m)); [now constructor | auto].
Qed.

Lemma matches_set_plus (cs : charset) (m : string) :
  matches (Plus (Set_ cs)) m <-> m <> "" /\ all_chars (cs_mem cs) m = true.
Proof.
  unfold Plus. rewrite matches_cat. split.
  - intros (m1 & m2 & -> & H1 & H2). inversion H1; subst.
    apply matches_set_star in H2. simpl. rewrite H2, andb_true_r.
    split; [discriminate | easy].
  - intros [Hn H]. destruct m as [|c m]; [congruence|].
    simpl in H. apply andb_true_iff in H as [Hc Hm].
    exists (String c ""), m. repeat split.
    + now constructor.
    + now apply matches_set_star.
Qed.

End ReFacts.

(* ================================================================== *)
(** * Facts about [ast.walk] *)

Module AstFacts.
Import Ast Spec.

Lemma tsize_app (l1 l2 : list node) : tsize (l1 ++ l2) = tsize l1 + tsize l2.
Proof. unfold tsize. now rewrite map_app, list_sum_app. Qed.

Lemma tsize_cons (n : node) (l : list node) : tsize (n :: l) = size n + tsize l.
Proof. reflexivity. Qed.

Lemma size_pos (n : node) : 1 <= size n.
Proof. destruct n; simpl; lia. Qed.

Lemma size_node_of_arg (a : arg) : size (node_of_arg a) = size_arg a.
Proof. destruct a as [n [ann|]]; simpl; lia. Qed.

Lemma tsize_args (l : list arg) :
  tsize (map node_of_arg l) = list_sum (map size_arg l).
Proof.
  induction l as [|a l IH]; [reflexivity|].
  simpl map. rewrite tsize_cons, IH, size_node_of_arg. reflexivity.
Qed.

Lemma tsize_opt_arg (o : option arg) :
  tsize (map node_of_arg (opt_list o))
  = match o with Some x => size_arg x | None => 0 end.
Proof.
  destruct o as [a|]; [|reflexivity].
  simpl. rewrite tsize_cons, size_node_of_arg. unfold tsize. simpl. lia.
Qed.

Lemma tsize_kw_defaults (l : list (option node)) :
  tsize (flat_map (@opt_list node) l)
  = list_sum (map (fun o => match o with Some x => size x | None => 0 end) l).
Proof.
  induction l as [|[x|] l IH]; simpl; [reflexivity| |exact IH].
  rewrite tsize_cons, IH. reflexivity.
Qed.

Lemma size_other (cls : string) (children : list node) :
  size (Other cls children) = S (tsize children).
Proof. reflexivity. Qed.

Lemma size_node_of_arguments (a : arguments) :
  size (node_of_arguments a) = size_arguments a.
Proof.
  destruct a as [po ar va ko kd kw de]. unfold node_of_arguments.
  rewrite size_other, !tsize_app, !tsize_args, tsize_kw_defaults.
  destruct va, kw; simpl; unfold tsize; lia.
Qed.

Lemma tsize_keywords (l : list (option string * node)) :
  tsize (map node_of_keyword l)
  = list_sum (map (fun k => 1 + size (snd k)) l).
Proof.
  induction l as [|k l IH]; [reflexivity|].
  simpl map. rewrite tsize_cons, IH. simpl. lia.
Qed.

Lemma tsize_aliases (l : list alias) :
  tsize (map node_of_alias l) = List.length l.
Proof.
  induction l as [|a l IH]; [reflexivity|].
  simpl map. rewrite tsize_cons, IH. reflexivity.
Qed.

Lemma tsize_opt (o : option node) :
  tsize (opt_list o) = match o with Some x => size x | None => 0 end.
Proof. destruct o; unfold tsize; simpl; lia. Qed.

Lemma size_ctx (c : expr_context) : size (node_of_ctx c) = 1.
Proof. now destruct c. Qed.

(** A node is larger than all its children together, so the queue of
    [walk] shrinks in size at every turn. *)
Lemma size_children (n : node) : S (tsize (iter_child_nodes n)) = size n.
Proof.
  destruct n; cbn [iter_child_nodes size];
    repeat match goal with
           | |- context [list_sum (map size ?l)] => fold (tsize l)
           end;
    rewrite ?tsize_cons, ?tsize_app, ?tsize_cons, ?tsize_aliases,
      ?tsize_keywords, ?tsize_opt, ?size_node_of_arguments, ?size_ctx;
    unfold tsize; simpl; lia.
Qed.

(** Everything waiting in the queue is yielded. *)
Lemma walk_loop_todo (fuel : nat) (todo : list node) (n : node) :
  tsize todo <= fuel -> In n todo -> In n (walk_loop fuel todo).
Proof.
  revert todo; induction fuel as [|fuel IH]; intros todo Hf Hin.
  - destruct todo as [|m rest]; [contradiction|].
    rewrite tsize_cons in Hf. pose proof (size_pos m). lia.
  - destruct todo as [|m rest]; [contradiction|]. cbn [walk_loop].
    destruct Hin as [->|Hin]; [now left|]. right. apply IH.
    + rewrite tsize_app. rewrite tsize_cons in Hf.
      pose proof (size_children m). lia.
    + apply in_or_app. now left.
Qed.

(** The children of a yielded node are yielded. *)
Lemma walk_loop_children (fuel : nat) (todo : list node) (n c : node) :
  tsize todo <= fuel -> In n (walk_loop fuel todo) ->
  In c (iter_child_nodes n) -> In c (walk_loop fuel todo).
Proof.
  revert todo; induction fuel as [|fuel IH]; intros todo Hf Hn Hc.
  - destruct todo; contradiction.
  - destruct todo as [|m rest]; [contradiction|]. cbn [walk_loop] in *.
    assert (Hf' : tsize (rest ++ iter_child_nodes m) <= fuel).
    { rewrite tsize_app. rewrite tsize_cons in Hf.
      pose proof (size_children m). lia. }
    right. destruct Hn as [->|Hn].
    + apply walk_loop_todo; [exact Hf'|]. apply in_or_app. now right.
    + now apply IH.
Qed.

Lemma walk_loop_sound (fuel : nat) (todo : list node) (P : node -> Prop) :
  (forall n, In n todo -> P n) ->
  (forall n c, P n -> In c (iter_child_nodes n) -> P c) ->
  forall n, In n (walk_loop fuel todo) -> P n.
Proof.
  intros Htodo Hstep. revert todo Htodo.
  induction fuel as [|fuel IH]; intros todo Htodo n Hn.
  - destruct todo; contradiction.
  - destruct todo as [|m rest]; [contradiction|]. cbn [walk_loop] in Hn.
    destruct Hn as [<-|Hn]; [apply Htodo; now left|].
    apply (IH (rest ++ iter_child_nodes m)); [|exact Hn].
    intros k Hk. apply in_app_or in Hk as [Hk|Hk].
    + apply Htodo. now right.
    + apply (Hstep m); [apply Htodo; now left | exact Hk].
Qed.

(** [ast.walk(t)] yields the nodes of [t]: the root and, with every node,
    its children. *)
Lemma walk_root (t : node) : In t (walk t).
Proof.
  apply walk_loop_todo; [|now left].
  rewrite tsize_cons. unfold tsize. simpl. lia.
Qed.

Lemma walk_children (t n c : node) :
  In n (walk t) -> In c (iter_child_nodes n) -> In c (walk t).
Proof.
  apply walk_loop_children. rewrite tsize_cons. unfold tsize. simpl. lia.
Qed.

Lemma walk_spec (t n : node) : In n (walk t) <-> below t n.
Proof.
  split.
  - apply walk_loop_sound.
    + intros k [<-|[]]. constructor.
    + intros k c Hk Hc. now apply below_child with k.
  - induction 1 as [|k c _ IH Hc]; [apply walk_root|].
    now apply walk_children with k.
Qed.

Lemma below_trans (a b c : node) : below a b -> below b c -> below a c.
Proof.
  intros Hab Hbc. induction Hbc as [|k d _ IH Hd]; [exact Hab|].
  now apply below_child with k.
Qed.

(** A node of a subtree is a node of the tree. *)
Lemma walk_walk (t n m : node) : In n (walk t) -> In m (walk n) -> In m (walk t).
Proof. rewrite !walk_spec. apply below_trans. Qed.

End AstFacts.

(* ================================================================== *)
(** * Loops that append to a list *)

Module PyFacts.
Import Py.

Lemma for_loop_append {A B : Type} (l : list A) (body : A -> list B -> list B)
    (g : A -> list B) :
  (forall x st, In x l -> body x st = st ++ g x) ->
  forall st, for_loop l body st = st ++ flat_map g l.
Proof.
  induction l as [|x l IH]; intros Hbody st; simpl.
  - now rewrite app_nil_r.
  - rewrite Hbody by now left. rewrite IH.
    + now rewrite <- app_assoc.
    + intros y st' Hy. apply Hbody. now right.
Qed.

Lemma for_each_append {A B : Type} (l : list A)
    (body : A -> list B -> M (list B)) (g : A -> list B) :
  (forall x st, In x l -> body x st = ret (st ++ g x)) ->
  forall st, for_each l body st = ret (st ++ flat_map g l).
Proof.
  induction l as [|x l IH]; intros Hbody st; simpl.
  - now rewrite app_nil_r.
  - rewrite Hbody by now left. simpl. rewrite IH.
    + now rewrite <- app_assoc.
    + intros y st' Hy. apply Hbody. now right.
Qed.

(** A loop whose body never raises does not raise. *)
Lemma for_each_returns {A S : Type} (l : list A) (body : A -> S -> M S) :
  (forall x st, In x l -> exists st', body x st = ret st') ->
  forall st, exists st', for_each l body st = ret st'.
Proof.
  induction l as [|x l IH]; intros Hbody st; simpl.
  - now exists st.
  - destruct (Hbody x st) as [st1 ->]; [now left|]. simpl.
    apply IH. intros y st' Hy. apply Hbody. now right.
Qed.

End PyFacts.

(* ================================================================== *)
(** * Closed forms of the loops of [CodeAnalysisTool] *)

Module CodeAnalysisFacts.
Import Ast Py Spec AstFacts PyFacts CodeAnalysisTool.

Section Facts.

Variable ast_parse : string -> M node.
Variable ast_unparse : node -> M string.

Local Abbreviation text_of := (Spec.text_of ast_unparse).
Local Abbreviation unparse_accepts := (Spec.unparse_accepts ast_unparse).
Local Abbreviation target_entries := (Spec.target_entries ast_unparse).
Local Abbreviation node_entries := (Spec.node_entries ast_unparse).
Local Abbreviation variable_entries := (Spec.variable_entries ast_unparse).

Lemma unparse_text_of (n : node) :
  unparse_accepts n -> ast_unparse n = inr (text_of n).
Proof. intros [s H]. unfold text_of. now rewrite H. Qed.

Lemma collect_variables_closed (tree : node) :
  (forall n, printed tree n -> unparse_accepts n) ->
  collect_variables ast_unparse tree = ret (variable_entries tree).
Proof.
  intros Hun. unfold collect_variables, variable_entries.
  rewrite (for_each_append _ _ node_entries); [reflexivity|].
  intros n st Hn. destruct n; try (simpl; now rewrite app_nil_r).
  cbn [node_entries]. apply for_each_append.
  intros t st' Ht. destruct t; try (simpl; now rewrite app_nil_r).
  cbn [target_entries]. rewrite unparse_text_of; [reflexivity|].
  apply Hun. now apply printed_value with targets id ctx.
Qed.

Lemma collect_imports_returns (tree : node) :
  (forall n, printed tree n -> unparse_accepts n) ->
  exists imports, collect_imports ast_unparse tree = ret imports.
Proof.
  intros Hun. apply for_each_returns. intros n st Hn.
  destruct n; try (eexists; reflexivity).
  - destruct (Hun _ (printed_import _ _ Hn)) as [s ->].
    eexists; reflexivity.
  - destruct (Hun _ (printed_import_from _ _ _ _ Hn)) as [s ->].
    eexists; reflexivity.
Qed.

Lemma collect_calls_returns (tree : node) :
  (forall n, printed tree n -> unparse_accepts n) ->
  exists calls, collect_calls ast_unparse tree = ret calls.
Proof.
  intros Hun. apply for_each_returns. intros n st Hn.
  destruct n; try (eexists; reflexivity).
  destruct n; try (eexists; reflexivity).
  match goal with
  | Hn : In (Call (Attribute ?v ?a ?c) ?args ?kws) _ |- _ =>
      assert (Hv : unparse_accepts v)
        by (apply Hun; now apply printed_receiver with a c args kws)
  end.
  destruct Hv as [s ->]. eexists; reflexivity.
Qed.

(** What [_run] returns when parsing succeeds and [ast.unparse] accepts the
    nodes of the tree. *)
Lemma run_returns (code : string) (tree : node) :
  ast_parse code = inr tree ->
  (forall n, printed tree n -> unparse_accepts n) ->
  exists imports calls,
    _run ast_parse ast_unparse code
    = VDict [("imports", VList (map VStr imports));
             ("function_calls", VList (map VStr (fst calls)));
             ("attributes", VList (map VStr (snd calls)));
             ("classes", VList (collect_classes tree));
             ("variables", VList (variable_entries tree));
             ("success", VBool true)].
Proof.
  intros Hp Hun.
  destruct (collect_imports_returns Hun) as [imports Hi].
  destruct (collect_calls_returns Hun) as [calls Hc].
  exists imports, calls. unfold _run, run_body.
  rewrite Hp. simpl. rewrite Hi. simpl. rewrite Hc. simpl.
  rewrite (collect_variables_closed Hun). reflexivity.
Qed.

(** What [_run] returns when parsing fails. *)
Lemma analysis_parse_error (code : string) (e : exc) :
  ast_parse code = inl e -> _run ast_parse ast_unparse code = failure e.
Proof. intros Hp. unfold _run, run_body. now rewrite Hp. Qed.

(** [_run] returns one of two shapes of dictionary. *)
Lemma run_keys (code : string) :
  dict_keys (_run ast_parse ast_unparse code)
    = ["imports"; "function_calls"; "attributes"; "classes"; "variables";
       "success"]
  \/ dict_keys (_run ast_parse ast_unparse code) = ["error"; "success"].
Proof.
  unfold _run, run_body.
  destruct (ast_parse code) as [e|tree]; [now right|]. simpl.
  destruct (collect_imports ast_unparse tree) as [e|imports]; [now right|].
  simpl.
  destruct (collect_calls ast_unparse tree) as [e|calls]; [now right|]. simpl.
  destruct (collect_variables ast_unparse tree) as [e|vars]; [now right|].
  now left.
Qed.

End Facts.

End CodeAnalysisFacts.

(* ================================================================== *)
(** * Closed forms of the checks of [SolutionValidator] *)

Module ValidatorFacts.
Import Text Re Ast Py Spec TextFacts ReFacts AstFacts PyFacts SolutionValidator.

(** What [_run] returns when parsing succeeds, and when it fails. *)
Lemma run_parsed (ast_parse : string -> M node) (code : string) (tree : node) :
  ast_parse code = inr tree ->
  _run ast_parse code
  = VDict [("quality_checks", quality_checks code);
           ("anti_patterns", anti_patterns code);
           ("class_issues", VList (map VStr (collect_class_issues tree)));
           ("success", VBool true)].
Proof. intros Hp. unfold _run, run_body. now rewrite Hp. Qed.

Lemma validator_parse_error (ast_parse : string -> M node) (code : string) (e : exc) :
  ast_parse code = inl e -> _run ast_parse code = failure e.
Proof. intros Hp. unfold _run, run_body. now rewrite Hp. Qed.

Lemma check_method_append (method : node) (st : list string) :
  check_method method st = st ++ method_issue method.
Proof.
  unfold method_issue, check_method.
  destruct method; try now rewrite app_nil_r.
  destruct (_ && _); [reflexivity | now rewrite app_nil_r].
Qed.

Lemma collect_class_issues_closed (tree : node) :
  collect_class_issues tree = flat_map class_issues_of (walk tree).
Proof.
  unfold collect_class_issues.
  rewrite (for_loop_append _ _ class_issues_of); [reflexivity|].
  intros n st _. destruct n; try (simpl; now rewrite app_nil_r).
  cbn [class_issues_of]. apply for_loop_append.
  intros m st' _. apply check_method_append.
Qed.

Lemma method_issue_spec (name : string) (margs : arguments)
    (body decs : list node) (ret : option node) (tps : list node) :
  (first_not_self margs ->
   method_issue (FunctionDef name margs body decs ret tps)
   = [issue_message name])
  /\ (~ first_not_self margs ->
      method_issue (FunctionDef name margs body decs ret tps) = []).
Proof.
  unfold method_issue, check_method, first_not_self.
  destruct (arguments_args margs) as [|a rest] eqn:E; simpl.
  - split; [intros (f & r & H & _); discriminate | reflexivity].
  - destruct (String.eqb_spec (arg_arg a) "self") as [Hs|Hs]; simpl; split.
    + intros (f & r & H & Hn). injection H as <- _. contradiction.
    + reflexivity.
    + reflexivity.
    + intros Hn. exfalso. apply Hn. now exists a, rest.
Qed.

Lemma method_issue_inv (m : node) (msg : string) :
  In msg (method_issue m) ->
  exists name margs body decs ret tps,
    m = FunctionDef name margs body decs ret tps
    /\ msg = issue_message name /\ first_not_self margs.
Proof.
  destruct m; try contradiction. intros Hin.
  exists name, args, body, decorator_list, returns, type_params.
  split; [reflexivity|].
  destruct (method_issue_spec name args body decorator_list returns
              type_params) as [_ Hno].
  destruct (arguments_args args) as [|a rest] eqn:E.
  - rewrite Hno in Hin; [contradiction|].
    intros (f & r & H & _). congruence.
  - destruct (String.eqb_spec (arg_arg a) "self") as [Hs|Hs].
    + rewrite Hno in Hin; [contradiction|].
      intros (f & r & H & Hn). rewrite E in H. injection H as <- _.
      contradiction.
    + assert (Hf : first_not_self args) by (now exists a, rest).
      destruct (method_issue_spec name args body decorator_list returns
                  type_params) as [Hyes _].
      rewrite (Hyes Hf) in Hin. destruct Hin as [<-|[]]. now split.
Qed.

Lemma function_defs_spec (n m : node) :
  In m (function_defs n) <->
  In m (walk n) /\ exists name margs body decs ret tps,
                     m = FunctionDef name margs body decs ret tps.
Proof.
  unfold function_defs. rewrite filter_In. split.
  - intros [Hin Hf]. split; [exact Hin|].
    destruct m; try discriminate. repeat eexists.
  - intros [Hin (name & margs & body & decs & ret & tps & ->)]. now split.
Qed.

End ValidatorFacts.

(* ================================================================== *)
(** * The checks of [SolutionValidator] *)

Unset Implicit Arguments.

Module ValidatorClaims.
Import Text Re Ast Py Spec Samples.
Import TextFacts ReFacts AstFacts PyFacts ValidatorFacts SolutionValidator.

(** The pattern behind [global_variables] matches at the start of a line a
    non-empty run of upper-case letters and underscores, then white space,
    then an equals sign. *)
Lemma global_variables_iff (code : string) :
  global_variables code = true <->
  exists pre name ws post,
    code = (pre ++ name ++ ws ++ "=" ++ post)%string
    /\ line_start pre /\ name <> ""
    /\ all_chars upper_or_underscore name = true
    /\ all_chars is_space ws = true.
Proof.
  unfold global_variables. rewrite search_multiline_bol_spec. split.
  - intros (pre & m & post & -> & Hls & Hm). unfold global_re in Hm.
    apply matches_cat in Hm as (name & m2 & -> & Hname & Hm2).
    apply matches_set_plus in Hname as [Hne Hall].
    apply matches_cat in Hm2 as (ws & eq & -> & Hws & Heq).
    apply matches_set_star in Hws. apply matches_lit in Heq as ->.
    exists pre, name, ws, post. rewrite !append_assoc. auto.
  - intros (pre & name & ws & post & -> & Hls & Hne & Hall & Hws).
    exists pre, (name ++ ws ++ "=")%string, post. rewrite !append_assoc.
    split; [reflexivity|]. split; [exact Hls|].
    unfold global_re. apply MCat; [now apply matches_set_plus|].
    apply MCat; [now apply matches_set_star | now apply matches_lit].
Qed.

(** A word around which anything but a line feed may stand. *)
Lemma matches_around (lit m : string) :
  matches (Cat (Star (Set_ CDot)) (Cat (Lit lit) (Star (Set_ CDot)))) m <->
  exists b c, m = (b ++ lit ++ c)%string
              /\ all_chars not_lf b = true /\ all_chars not_lf c = true.
Proof.
  rewrite matches_cat. split.
  - intros (b & m1 & -> & Hb & Hm). apply matches_set_star in Hb.
    apply matches_cat in Hm as (l & c & -> & Hl & Hc).
    apply matches_lit in Hl as ->. apply matches_set_star in Hc.
    now exists b, c.
  - intros (b & c & -> & Hb & Hc). exists b, (lit ++ c)%string.
    split; [reflexivity|]. split; [now apply matches_set_star|].
    apply MCat; [now apply matches_lit | now apply matches_set_star].
Qed.

(** The pattern behind [mutable_defaults] matches, within one line, the
    word def, an opening parenthesis further on, the characters =[] or ={}
    further on, and a closing parenthesis further on. *)
Lemma mutable_defaults_iff (code : string) :
  mutable_defaults code = true <->
  exists pre a b lit c post,
    code = (pre ++ "def" ++ a ++ "(" ++ b ++ lit ++ c ++ ")" ++ post)%string
    /\ (lit = "=[]" \/ lit = "={}")
    /\ all_chars not_lf a = true /\ all_chars not_lf b = true
    /\ all_chars not_lf c = true.
Proof.
  unfold mutable_defaults. rewrite search_spec. split.
  - intros (pre & m & post & -> & Hm). unfold mutable_re in Hm.
    apply matches_cat in Hm as (d & m1 & -> & Hd & Hm).
    apply matches_lit in Hd as ->.
    apply matches_cat in Hm as (a & m2 & -> & Ha & Hm).
    apply matches_set_star in Ha.
    apply matches_cat in Hm as (o & m3 & -> & Ho & Hm).
    apply matches_lit in Ho as ->.
    apply matches_cat in Hm as (x & cl & -> & Hx & Hcl).
    apply matches_lit in Hcl as ->.
    assert (Hlit : exists b lit c,
               x = (b ++ lit ++ c)%string /\ (lit = "=[]" \/ lit = "={}")
               /\ all_chars not_lf b = true /\ all_chars not_lf c = true).
    { apply matches_alt in Hx as [Hx|Hx];
        apply matches_around in Hx as (b & c & -> & Hb & Hc);
        eexists b, _, c; auto. }
    destruct Hlit as (b & lit & c & -> & Hlit & Hb & Hc).
    exists pre, a, b, lit, c, post. rewrite !append_assoc. auto.
  - intros (pre & a & b & lit & c & post & -> & Hlit & Ha & Hb & Hc).
    exists pre, ("def" ++ a ++ "(" ++ (b ++ lit ++ c) ++ ")")%string, post.
    split.
    { rewrite !append_assoc. reflexivity. }
    unfold mutable_re. apply MCat; [now apply matches_lit|].
    apply MCat; [now apply matches_set_star|].
    apply MCat; [now apply matches_lit|].
    apply MCat; [|now apply matches_lit].
    destruct Hlit as [-> | ->]; [apply MAltL | apply MAltR];
      apply matches_around; now exists b, c.
Qed.

(** C1, as the code has it.  On a text that parses, the entry
    [global_variables] of [anti_patterns] is true exactly when some line
    starts with a non-empty run of upper-case ASCII letters and underscores,
    followed by white space or nothing and then an equals sign.  Names
    written in upper case are what the check reports; an assignment to any
    other name is not reported. *)
Theorem global_variables_flags_upper_case_names
    (ast_parse : string -> M node) (code : string) (tree : node) :
  ast_parse code = inr tree ->
  exists b,
    dict_path ["anti_patterns"; "global_variables"] (_run ast_parse code)
    = Some (VBool b)
    /\ (b = true <->
        exists pre name ws post,
          code = (pre ++ name ++ ws ++ "=" ++ post)%string
          /\ line_start pre /\ name <> ""
          /\ all_chars upper_or_underscore name = true
          /\ all_chars is_space ws = true).
Proof.
  intros Hp. exists (global_variables code). split.
  - now rewrite (run_parsed _ _ Hp).
  - apply global_variables_iff.
Qed.

Lemma global_variables_flags_upper_case_names_witness :
  exists b,
    dict_path ["anti_patterns"; "global_variables"]
      (_run Samples.parse constant_src) = Some (VBool b)
    /\ (b = true <->
        exists pre name ws post,
          constant_src = (pre ++ name ++ ws ++ "=" ++ post)%string
          /\ line_start pre /\ name <> ""
          /\ all_chars upper_or_underscore name = true
          /\ all_chars is_space ws = true).
Proof.
  apply (global_variables_flags_upper_case_names Samples.parse constant_src
           constant_ast).
  reflexivity.
Defined.

(** C1 as stated fails: [MAX_SIZE = 10] binds an upper-case name at module
    level and is reported, while [counter = 0], a module-level assignment to
    another name, is not. *)
Lemma upper_case_name_flagged_lower_case_not :
  dict_path ["anti_patterns"; "global_variables"]
    (_run Samples.parse constant_src) = Some (VBool true)
  /\ dict_path ["anti_patterns"; "global_variables"]
       (_run Samples.parse counter_src) = Some (VBool false).
Proof. split; vm_compute; reflexivity. Qed.

(** C7, as the code has it.  On a text that parses, [mutable_defaults] is
    one truth value for the whole text.  It is true exactly when the text
    holds, within one line, the word def, then an opening parenthesis, then
    =[] or ={}, then a closing parenthesis; it is true for
    [def f(data=[]): pass]. *)
Theorem mutable_defaults_is_one_flag
    (ast_parse : string -> M node) (code : string) (tree : node) :
  ast_parse code = inr tree ->
  ast_parse one_default_src = inr one_default_ast ->
  (exists b,
     dict_path ["anti_patterns"; "mutable_defaults"] (_run ast_parse code)
     = Some (VBool b)
     /\ (b = true <->
         exists pre a b lit c post,
           code = (pre ++ "def" ++ a ++ "(" ++ b ++ lit ++ c ++ ")"
                       ++ post)%string
           /\ (lit = "=[]" \/ lit = "={}")
           /\ all_chars not_lf a = true /\ all_chars not_lf b = true
           /\ all_chars not_lf c = true))
  /\ dict_path ["anti_patterns"; "mutable_defaults"]
       (_run ast_parse one_default_src) = Some (VBool true).
Proof.
  intros Hp Hone. split.
  - exists (mutable_defaults code). split.
    + now rewrite (run_parsed _ _ Hp).
    + apply mutable_defaults_iff.
  - now rewrite (run_parsed _ _ Hone).
Qed.

Lemma mutable_defaults_is_one_flag_witness :
  dict_path ["anti_patterns"; "mutable_defaults"]
    (_run Samples.parse one_default_src) = Some (VBool true).
Proof.
  apply (mutable_defaults_is_one_flag Samples.parse two_defaults_src
           two_defaults_ast); reflexivity.
Defined.

(** C7 as stated fails: a function with one offending parameter and a
    function with two get the same result, so nothing read off the result
    can be one finding for the first and two for the second, nor name the
    parameter. *)
Lemma two_mutable_defaults_one_report :
  _run Samples.parse one_default_src = _run Samples.parse two_defaults_src
  /\ ~ exists count : pyval -> nat,
         count (_run Samples.parse one_default_src) = 1
         /\ count (_run Samples.parse two_defaults_src) = 2.
Proof.
  assert (E : _run Samples.parse one_default_src
              = _run Samples.parse two_defaults_src)
    by (vm_compute; reflexivity).
  split; [exact E|]. intros (count & H1 & H2). rewrite E in H1. congruence.
Qed.

(** C10.  On a text that parses, the entry [bare_except] of
    [anti_patterns] is true exactly when the text contains the seven
    characters except: somewhere.  The text that assigns the string literal
    except: to [x] parses to a tree without any handler node, and
    [bare_except] is true for it. *)
Theorem bare_except_is_substring_test
    (ast_parse : string -> M node) (code : string) (tree : node) :
  ast_parse code = inr tree ->
  ast_parse literal_src = inr literal_ast ->
  (exists b,
     dict_path ["anti_patterns"; "bare_except"] (_run ast_parse code)
     = Some (VBool b)
     /\ (b = true <->
         exists pre post, code = (pre ++ "except:" ++ post)%string))
  /\ existsb is_handler (walk literal_ast) = false
  /\ dict_path ["anti_patterns"; "bare_except"] (_run ast_parse literal_src)
     = Some (VBool true).
Proof.
  intros Hp Hlit. split; [|split].
  - exists (bare_except code). split.
    + now rewrite (run_parsed _ _ Hp).
    + apply str_in_spec.
  - reflexivity.
  - now rewrite (run_parsed _ _ Hlit).
Qed.

Lemma bare_except_is_substring_test_witness :
  existsb is_handler (walk literal_ast) = false
  /\ dict_path ["anti_patterns"; "bare_except"]
       (_run Samples.parse literal_src) = Some (VBool true).
Proof.
  apply (bare_except_is_substring_test Samples.parse counter_src
           counter_ast); reflexivity.
Defined.

End ValidatorClaims.

(* ================================================================== *)
(** * The class-structure check of [SolutionValidator] *)

Module ClassStructureClaims.
Import Text Ast Py Spec Samples.
Import AstFacts PyFacts ValidatorFacts SolutionValidator.


(** What lines 160-162 do with one function defined by [def]: a message
    is appended when the positional parameters start with a name other than
    [self], and nothing is appended otherwise. *)
Lemma check_method_cases (name : string) (margs : arguments)
    (fbody fdecs : list node) (ret : option node) (ftps : list node)
    (st : list string) :
  (first_not_self margs ->
   check_method (FunctionDef name margs fbody fdecs ret ftps) st
   = st ++ [issue_message name])
  /\ (~ first_not_self margs ->
      check_method (FunctionDef name margs fbody fdecs ret ftps) st = st).
Proof.
  rewrite check_method_append.
  destruct (method_issue_spec name margs fbody fdecs ret ftps) as [Hyes Hno].
  split; intros H.
  - now rewrite (Hyes H).
  - rewrite (Hno H). apply app_nil_r.
Qed.

(** A function defined with [def] directly in the body of a class is among
    the [methods] of that class. *)
Lemma direct_method_examined
    (cname : string) (bases : list node) (kws : list (option string * node))
    (body decs tps : list node) (f : node) :
  In f body ->
  (exists name margs fbody fdecs ret ftps,
     f = FunctionDef name margs fbody fdecs ret ftps) ->
  In f (function_defs (ClassDef cname bases kws body decs tps)).
Proof.
  intros Hf Hdef. apply function_defs_spec. split; [|exact Hdef].
  apply walk_children with (ClassDef cname bases kws body decs tps).
  - apply walk_root.
  - simpl. apply in_or_app. right. apply in_or_app. right.
    apply in_or_app. now left.
Qed.





End ClassStructureClaims.

(* ================================================================== *)
(** * The facts of [CodeAnalysisTool] *)

Module CodeAnalysisClaims.
Import Text Ast Py Spec Samples.
Import AstFacts PyFacts CodeAnalysisFacts CodeAnalysisTool.

(** C4.  The class [C] declares one method, [m], and [m] defines a local
    function [inner]; the entry of [C] in [classes] lists both names as
    methods. *)
Theorem nested_function_listed_as_method
    (ast_parse : string -> M node) (ast_unparse : node -> M string) :
  ast_parse nested_src = inr nested_ast ->
  dict_get "classes" (_run ast_parse ast_unparse nested_src)
  = Some (VList [VDict [("name", VStr "C");
                        ("methods", VList [VStr "m"; VStr "inner"])]]).
Proof.
  intros Hp. unfold _run, run_body. rewrite Hp. reflexivity.
Qed.

Lemma nested_function_listed_as_method_witness :
  dict_get "classes" (_run Samples.parse Samples.unparse nested_src)
  = Some (VList [VDict [("name", VStr "C");
                        ("methods", VList [VStr "m"; VStr "inner"])]]).
Proof.
  apply (nested_function_listed_as_method Samples.parse Samples.unparse).
  reflexivity.
Defined.

(** C5, as the code has it.  On a text that parses, when [ast.unparse]
    accepts the nodes handed to it, [variables] holds, for the [Assign] nodes in the
    order [ast.walk] yields them, one pair of name and value text for every
    target that is a plain name, whether the assignment has one target or
    several; a target of any other kind and a node of any other class add
    nothing. *)
Theorem variables_one_entry_per_name_target
    (ast_parse : string -> M node) (ast_unparse : node -> M string)
    (code : string) (tree : node) :
  ast_parse code = inr tree ->
  (forall n, printed tree n -> unparse_accepts ast_unparse n) ->
  dict_get "variables" (_run ast_parse ast_unparse code)
  = Some (VList (variable_entries ast_unparse tree))
  /\ (forall value id ctx,
        target_entries ast_unparse value (Name id ctx)
        = [VDict [("name", VStr id);
                  ("value", VStr (text_of ast_unparse value))]])
  /\ (forall value target,
        (forall id ctx, target <> Name id ctx) ->
        target_entries ast_unparse value target = [])
  /\ (forall targets value,
        node_entries ast_unparse (Assign targets value)
        = flat_map (target_entries ast_unparse value) targets)
  /\ (forall n,
        (forall targets value, n <> Assign targets value) ->
        node_entries ast_unparse n = []).
Proof.
  intros Hp Hun. split; [|split; [|split; [|split]]].
  - destruct (run_returns ast_parse code Hp Hun) as (imports & calls & ->).
    reflexivity.
  - reflexivity.
  - intros value target Hn. destruct target; try reflexivity.
    now destruct (Hn id ctx).
  - reflexivity.
  - intros n Hn. destruct n; try reflexivity. now destruct (Hn targets n).
Qed.

Lemma variables_one_entry_per_name_target_witness :
  dict_get "variables" (_run Samples.parse Samples.unparse counter_src)
  = Some (VList (variable_entries Samples.unparse counter_ast)).
Proof.
  apply (variables_one_entry_per_name_target Samples.parse Samples.unparse
           counter_src counter_ast).
  - reflexivity.
  - intros n Hn. destruct Hn as [? H|? ? ? H|? ? ? ? ? H|? ? ? ? H _];
      vm_compute in H;
      repeat (destruct H as [H|H]; [try discriminate H|]);
      try contradiction.
    injection H as _ <-. eexists; reflexivity.
Defined.

(** C5 as stated fails: [a = b = 1] is an assignment with two targets, and
    it adds an entry for each of them. *)
Lemma chained_assignment_recorded :
  Samples.parse chained_src = inr chained_ast
  /\ dict_get "variables" (_run Samples.parse Samples.unparse chained_src)
     = Some (VList [VDict [("name", VStr "a"); ("value", VStr "1")];
                    VDict [("name", VStr "b"); ("value", VStr "1")]]).
Proof. split; vm_compute; reflexivity. Qed.

(** C9.  When [ast.parse] raises on the text, [_run] returns a dictionary
    with [success] false and the message of the exception under [error]. *)
Theorem parse_error_reported
    (ast_parse : string -> M node) (ast_unparse : node -> M string)
    (code : string) (e : exc) :
  ast_parse code = inl e ->
  _run ast_parse ast_unparse code
  = VDict [("error", VStr (exc_msg e)); ("success", VBool false)].
Proof. intros Hp. now rewrite (analysis_parse_error _ _ _ Hp). Qed.

Lemma parse_error_reported_witness :
  exc_class malformed_error = "SyntaxError"
  /\ _run Samples.parse Samples.unparse malformed_src
     = VDict [("error", VStr "invalid syntax (<unknown>, line 1)");
              ("success", VBool false)].
Proof.
  split; [reflexivity|].
  apply (parse_error_reported Samples.parse Samples.unparse malformed_src
           malformed_error).
  reflexivity.
Defined.

End CodeAnalysisClaims.

(* ================================================================== *)
(** * The two entry points on source text *)

Module EntryPointClaims.
Import Text Ast Py Spec Samples.

(** C8, as the code has it.  The two tools share the call of [ast.parse] and
    the handler: when parsing fails both return the same failure
    dictionary.  When parsing succeeds the validator returns the keys
    [quality_checks], [anti_patterns], [class_issues] and [success], the
    analysis returns its fact lists or a failure, and the two results
    differ. *)
Theorem analysis_and_validation_differ
    (ast_parse : string -> M node) (ast_unparse : node -> M string)
    (code : string) :
  (forall e, ast_parse code = inl e ->
     CodeAnalysisTool._run ast_parse ast_unparse code = failure e
     /\ SolutionValidator._run ast_parse code = failure e)
  /\ (forall tree, ast_parse code = inr tree ->
        dict_keys (SolutionValidator._run ast_parse code)
        = ["quality_checks"; "anti_patterns"; "class_issues"; "success"]
        /\ (dict_keys (CodeAnalysisTool._run ast_parse ast_unparse code)
            = ["imports"; "function_calls"; "attributes"; "classes";
               "variables"; "success"]
            \/ dict_keys (CodeAnalysisTool._run ast_parse ast_unparse code)
               = ["error"; "success"])
        /\ CodeAnalysisTool._run ast_parse ast_unparse code
           <> SolutionValidator._run ast_parse code).
Proof.
  split.
  - intros e Hp. split.
    + now apply CodeAnalysisFacts.analysis_parse_error.
    + now apply ValidatorFacts.validator_parse_error.
  - intros tree Hp.
    assert (Hv : dict_keys (SolutionValidator._run ast_parse code)
                 = ["quality_checks"; "anti_patterns"; "class_issues";
                    "success"])
      by now rewrite (ValidatorFacts.run_parsed _ _ Hp).
    pose proof (CodeAnalysisFacts.run_keys ast_parse ast_unparse code) as Ha.
    split; [exact Hv|]. split; [exact Ha|].
    intros E. rewrite E, Hv in Ha. destruct Ha; discriminate.
Qed.

Lemma analysis_and_validation_differ_witness :
  CodeAnalysisTool._run Samples.parse Samples.unparse malformed_src
  = failure malformed_error
  /\ SolutionValidator._run Samples.parse malformed_src
     = failure malformed_error.
Proof.
  apply (proj1 (analysis_and_validation_differ Samples.parse Samples.unparse
                  malformed_src) malformed_error).
  reflexivity.
Defined.

(** C8 as stated fails: on [counter = 0] the analysis returns the facts of
    the text and the validation returns its checks. *)
Lemma analysis_is_not_validation :
  CodeAnalysisTool._run Samples.parse Samples.unparse counter_src
  = VDict [("imports", VList []); ("function_calls", VList []);
           ("attributes", VList []); ("classes", VList []);
           ("variables",
            VList [VDict [("name", VStr "counter"); ("value", VStr "0")]]);
           ("success", VBool true)]
  /\ SolutionValidator._run Samples.parse counter_src
     = VDict [("quality_checks",
               VDict [("has_docstring", VBool false);
                      ("has_type_hints", VBool false);
                      ("has_error_handling", VBool false);
                      ("follows_pep8", VBool true)]);
              ("anti_patterns",
               VDict [("bare_except", VBool false);
                      ("global_variables", VBool false);
                      ("mutable_defaults", VBool false)]);
              ("class_issues", VList []); ("success", VBool true)]
  /\ CodeAnalysisTool._run Samples.parse Samples.unparse counter_src
     <> SolutionValidator._run Samples.parse counter_src.
Proof. repeat split; vm_compute; try reflexivity. discriminate. Qed.

End EntryPointClaims.

(* ================================================================== *)
(** * The scan of [DependencyAnalyzer] *)

Module DependencyFacts.
Import Py Spec PyFacts DependencyAnalyzer.

Section Probes.

Variable h : host.
Variable project_path : string.

Lemma flat_map_filter {A : Type} (f : A -> bool) (l : list A) :
  flat_map (fun x => if f x then [x] else []) l = filter f l.
Proof.
  induction l as [|x l IH]; [reflexivity|]. simpl.
  destruct (f x); simpl; now rewrite IH.
Qed.

(** When every probe answers, the loop keeps the files found. *)
Lemma probes_answer (files st : list string) :
  (forall f, In f files -> exists b, path_exists h project_path f = inr b) ->
  for_each files (check_file h project_path) st
  = ret (st ++ filter (present h project_path) files).
Proof.
  intros Hall. rewrite <- flat_map_filter. apply for_each_append.
  intros f st' Hf. unfold check_file, present.
  destruct (Hall f Hf) as [b ->]. simpl.
  destruct b; [reflexivity | now rewrite app_nil_r].
Qed.

(** When some probe raises, the loop raises. *)
Lemma probe_raises (files st : list string) :
  (exists f e, In f files /\ path_exists h project_path f = inl e) ->
  exists e, for_each files (check_file h project_path) st = inl e.
Proof.
  revert st; induction files as [|g files IH]; intros st (f & e & Hf & He).
  - contradiction.
  - simpl. unfold check_file at 1.
    destruct (path_exists h project_path g) as [e'|b] eqn:Eg.
    + now exists e'.
    + simpl. apply IH. destruct Hf as [->|Hf]; [congruence|].
      now exists f, e.
Qed.

(** Every probe answers or one raises. *)
Lemma probes_cases (files : list string) :
  (forall f, In f files -> exists b, path_exists h project_path f = inr b)
  \/ (exists f e, In f files /\ path_exists h project_path f = inl e).
Proof.
  induction files as [|g files [IH|(f & e & Hf & He)]].
  - left. intros f [].
  - destruct (path_exists h project_path g) as [e|b] eqn:Eg.
    + right. exists g, e. split; [now left | exact Eg].
    + left. intros f [<-|Hf]; [now exists b | now apply IH].
  - right. exists f, e. split; [now right | exact He].
Qed.

End Probes.

End DependencyFacts.

Module DependencyClaims.
Import Py Spec Samples PyFacts DependencyFacts DependencyAnalyzer.

(** C2, as the code has it.  When the call of [subprocess.run] returns,
    which it does once the child has exited, whatever its exit status, and
    its output has been decoded as text, and the probes answer, the scan
    returns [success] true with the files found and the captured standard
    output, and marks nothing as failed.  When the call raises, as it does
    when the program cannot be started and when the output of a child that
    has exited is no valid text, the scan returns the failure dictionary and
    no list of files.  No timeout is set: while the call does not return the
    scan does not return. *)
Theorem scan_after_pip (h : host) (project_path : string) :
  (forall result,
     pip_list h = Returns result ->
     (forall f, In f common_dep_files ->
                exists b, path_exists h project_path f = inr b) ->
     _run h project_path
     = Some (VDict [("installed_packages", VStr (stdout result));
                    ("dependency_files",
                     VList (map VStr (filter (present h project_path)
                                        common_dep_files)));
                    ("success", VBool true)]))
  /\ (forall e,
        pip_list h = Raises e ->
        _run h project_path
        = Some (VDict [("error", VStr (exc_msg e)); ("success", VBool false)]))
  /\ (pip_list h = Blocks -> _run h project_path = None).
Proof.
  split; [|split].
  - intros result Hpip Hall. unfold _run, after_pip, find_dep_files.
    rewrite Hpip.
    rewrite (probes_answer h project_path common_dep_files [] Hall).
    reflexivity.
  - intros e Hpip. unfold _run. now rewrite Hpip.
  - intros Hpip. unfold _run. now rewrite Hpip.
Qed.

Lemma scan_after_pip_witness :
  returncode pip_exit_1 = 1%Z
  /\ _run host_exit_1 "/proj"
     = Some (VDict [("installed_packages", VStr "");
                    ("dependency_files", VList [VStr "requirements.txt"]);
                    ("success", VBool true)]).
Proof.
  split; [reflexivity|].
  apply (proj1 (scan_after_pip host_exit_1 "/proj") pip_exit_1).
  - reflexivity.
  - intros f _. eexists; reflexivity.
Defined.

(** C2 as stated fails: on a machine with no [pip] program the call of
    [subprocess.run] raises, and the scan of a readable directory that
    holds [requirements.txt] returns [success] false and no list of
    files. *)
Lemma missing_pip_fails_whole_scan :
  is_readable_dir host_no_pip "/proj" = true
  /\ path_exists host_no_pip "/proj" "requirements.txt" = inr true
  /\ exists result,
       _run host_no_pip "/proj" = Some result
       /\ dict_get "success" result = Some (VBool false)
       /\ dict_get "dependency_files" result = None.
Proof.
  split; [reflexivity|]. split; [reflexivity|].
  eexists. split; [reflexivity|]. split; reflexivity.
Qed.

(** C3, as the code has it.  A scan that returns reports failure exactly
    when the call of [subprocess.run] raised or a probe for one of the five
    files raised.  Whether the path is a readable directory is never
    tested: for a path that is none, with probes that answer that nothing
    exists, the scan succeeds with an empty list of files unless the call of
    [subprocess.run] raised. *)
Theorem scan_fails_only_on_raise
    (h : host) (project_path : string) (result : pyval) :
  _run h project_path = Some result ->
  (failed result <->
   (exists e, pip_list h = Raises e)
   \/ (exists f e, In f common_dep_files
                   /\ path_exists h project_path f = inl e))
  /\ (is_readable_dir h project_path = false ->
      (forall f, In f common_dep_files ->
                 path_exists h project_path f = inr false) ->
      (exists e, pip_list h = Raises e)
      \/ (dict_get "success" result = Some (VBool true)
          /\ dict_get "dependency_files" result = Some (VList []))).
Proof.
  unfold _run. intros Hrun.
  destruct (pip_list h) as [cp|e|] eqn:Hpip; [| |discriminate].
  - injection Hrun as <-. unfold after_pip, find_dep_files.
    split.
    + destruct (probes_cases h project_path common_dep_files) as [Hall|Hex].
      * rewrite (probes_answer h project_path common_dep_files [] Hall).
        split; [discriminate|].
        intros [[e He] | (f & e & Hf & He)]; [discriminate|].
        destruct (Hall f Hf) as [b Hb]. congruence.
      * destruct (probe_raises h project_path common_dep_files [] Hex)
          as [e ->].
        split; [intros _; now right | reflexivity].
    + intros _ Hnone. right.
      rewrite (probes_answer h project_path common_dep_files []).
      * assert (Hf : forall f, In f common_dep_files ->
                               present h project_path f = false).
        { intros f Hf. unfold present. now rewrite (Hnone f Hf). }
        unfold common_dep_files in Hf |- *. simpl.
        rewrite !Hf by (simpl; tauto). split; reflexivity.
      * intros f Hf. exists false. now apply Hnone.
  - injection Hrun as <-. split.
    + split; [intros _; left; now exists e | reflexivity].
    + intros _ _. left. now exists e.
Qed.

Lemma scan_fails_only_on_raise_witness :
  failed (VDict [("installed_packages", VStr "[]");
                 ("dependency_files", VList []); ("success", VBool true)])
  <-> (exists e, pip_list host_ok = Raises e)
      \/ (exists f e, In f common_dep_files
                      /\ path_exists host_ok "/nope" f = inl e).
Proof.
  apply (scan_fails_only_on_raise host_ok "/nope"). reflexivity.
Defined.

(** C3 as stated fails both ways: the scan of a path that is no directory
    succeeds with an empty list of files, and the scan of a readable
    directory fails when the call of [subprocess.run] raises, here for want
    of a [pip] program. *)
Lemma scan_ignores_directory :
  (is_readable_dir host_ok "/nope" = false
   /\ _run host_ok "/nope"
      = Some (VDict [("installed_packages", VStr "[]");
                     ("dependency_files", VList []);
                     ("success", VBool true)]))
  /\ (is_readable_dir host_no_pip "/proj" = true
      /\ _run host_no_pip "/proj"
         = Some (VDict [("error",
                         VStr "[Errno 2] No such file or directory: 'pip'");
                        ("success", VBool false)])).
Proof. repeat split. Qed.

(** The call of [subprocess.run] also raises after pip has exited with
    status 0, when what pip wrote is no valid text; that scan fails too. *)
Lemma undecodable_output_fails_scan :
  _run SamplesMore.host_undecodable "/proj"
  = Some (VDict [("error", VStr (exc_msg SamplesMore.undecodable));
                 ("success", VBool false)]).
Proof. reflexivity. Qed.

End DependencyClaims.

(* ================================================================== *)
(** * More about the loops of [CodeAnalysisTool] *)

Module CodeAnalysisMore.
Import Text Ast Py Spec SpecTools Samples.
Import AstFacts PyFacts CodeAnalysisFacts CodeAnalysisTool.

(** A loop over two lists that appends to either. *)
Lemma for_each_append2 {A B C : Type} (l : list A)
    (body : A -> list B * list C -> M (list B * list C))
    (g1 : A -> list B) (g2 : A -> list C) :
  (forall x st, In x l -> body x st = ret (fst st ++ g1 x, snd st ++ g2 x)) ->
  forall st,
    for_each l body st
    = ret (fst st ++ flat_map g1 l, snd st ++ flat_map g2 l).
Proof.
  induction l as [|x l IH]; intros Hbody st; simpl.
  - rewrite !app_nil_r. now destruct st.
  - rewrite Hbody by now left. simpl. rewrite IH.
    + simpl. now rewrite <- !app_assoc.
    + intros y st' Hy. apply Hbody. now right.
Qed.

(** A loop that raises does so in its body, at one of the elements. *)
Lemma for_each_raises_inv {A S : Type} (l : list A) (body : A -> S -> M S)
    (st : S) (e : exc) :
  for_each l body st = inl e ->
  exists x st', In x l /\ body x st' = inl e.
Proof.
  revert st; induction l as [|x l IH]; intros st H; simpl in H.
  - discriminate.
  - destruct (body x st) as [e'|st1] eqn:E; simpl in H.
    + injection H as ->. exists x, st. split; [now left | exact E].
    + destruct (IH _ H) as (y & st' & Hy & Hb). exists y, st'.
      split; [now right | exact Hb].
Qed.

(** A loop raises when its body raises at one element whatever the state. *)
Lemma for_each_raises {A S : Type} (l : list A) (body : A -> S -> M S)
    (x : A) :
  In x l -> (forall st, exists e, body x st = inl e) ->
  forall st, exists e, for_each l body st = inl e.
Proof.
  induction l as [|y l IH]; intros Hin Hx st; [contradiction|]. simpl.
  destruct (body y st) as [e'|st1] eqn:E; simpl.
  - now exists e'.
  - destruct Hin as [->|Hin].
    + destruct (Hx st) as [e He]. congruence.
    + now apply IH.
Qed.

Section Facts.

Variable ast_parse : string -> M node.
Variable ast_unparse : node -> M string.

Lemma collect_imports_closed (tree : node) :
  (forall n, printed tree n -> unparse_accepts ast_unparse n) ->
  collect_imports ast_unparse tree
  = ret (flat_map (import_text ast_unparse) (walk tree)).
Proof.
  intros Hun. unfold collect_imports.
  rewrite (for_each_append _ _ (import_text ast_unparse)); [reflexivity|].
  intros n st Hn. destruct n; try (simpl; now rewrite app_nil_r).
  - cbn [import_text].
    now rewrite (unparse_text_of (Hun _ (printed_import _ _ Hn))).
  - cbn [import_text].
    now rewrite (unparse_text_of
                   (Hun _ (printed_import_from _ _ _ _ Hn))).
Qed.

Lemma collect_calls_closed (tree : node) :
  (forall n, printed tree n -> unparse_accepts ast_unparse n) ->
  collect_calls ast_unparse tree
  = ret (flat_map call_name (walk tree),
         flat_map (call_attribute ast_unparse) (walk tree)).
Proof.
  intros Hun. unfold collect_calls.
  rewrite (for_each_append2 _ _ call_name (call_attribute ast_unparse));
    [reflexivity|].
  intros n st Hn.
  destruct n; try (simpl; rewrite !app_nil_r; now destruct st).
  destruct n; try (simpl; rewrite !app_nil_r; now destruct st).
  cbn [call_name call_attribute]. rewrite app_nil_r.
  match goal with
  | Hn : In (Call (Attribute ?v ?a ?c) ?args ?kws) _ |- _ =>
      rewrite (unparse_text_of (Hun _ (printed_receiver _ _ _ _ _ _ Hn)))
  end.
  reflexivity.
Qed.

Lemma collect_classes_closed (tree : node) :
  collect_classes tree = flat_map class_entry (walk tree).
Proof.
  unfold collect_classes.
  rewrite (for_loop_append _ _ class_entry); [reflexivity|].
  intros n st _. destruct n; try (simpl; now rewrite app_nil_r). reflexivity.
Qed.

(** What [_run] returns when parsing succeeds and [ast.unparse] accepts
    what it is given, every list in closed form. *)
Lemma run_closed (code : string) (tree : node) :
  ast_parse code = inr tree ->
  (forall n, printed tree n -> unparse_accepts ast_unparse n) ->
  _run ast_parse ast_unparse code
  = VDict [("imports",
            VList (map VStr (flat_map (import_text ast_unparse) (walk tree))));
           ("function_calls",
            VList (map VStr (flat_map call_name (walk tree))));
           ("attributes",
            VList (map VStr (flat_map (call_attribute ast_unparse)
                               (walk tree))));
           ("classes", VList (flat_map class_entry (walk tree)));
           ("variables", VList (variable_entries ast_unparse tree));
           ("success", VBool true)].
Proof.
  intros Hp Hun. unfold _run, run_body. rewrite Hp. simpl.
  rewrite (collect_imports_closed tree Hun). simpl.
  rewrite (collect_calls_closed tree Hun). simpl.
  rewrite (collect_variables_closed Hun), collect_classes_closed.
  reflexivity.
Qed.

(** The loops raise only where [ast.unparse] raises on a printed node. *)
Lemma imports_raise_inv (tree : node) (e : exc) :
  collect_imports ast_unparse tree = inl e ->
  exists n, printed tree n /\ ast_unparse n = inl e.
Proof.
  intros H. apply for_each_raises_inv in H as (n & st & Hn & Hb).
  destruct n; try discriminate.
  - exists (Import names). split; [now constructor|].
    unfold bind in Hb.
    destruct (ast_unparse (Import names)); [congruence|discriminate].
  - exists (ImportFrom module names level). split; [now constructor|].
    unfold bind in Hb.
    destruct (ast_unparse (ImportFrom module names level));
      [congruence|discriminate].
Qed.

Lemma calls_raise_inv (tree : node) (e : exc) :
  collect_calls ast_unparse tree = inl e ->
  exists n, printed tree n /\ ast_unparse n = inl e.
Proof.
  intros H. apply for_each_raises_inv in H as (n & st & Hn & Hb).
  destruct n; try discriminate. destruct n; try discriminate.
  match goal with
  | Hn : In (Call (Attribute ?v ?a ?c) ?args ?kws) _ |- _ =>
      exists v; split; [now apply printed_receiver with a c args kws|]
  end.
  unfold bind in Hb.
  match goal with
  | Hb : context [ast_unparse ?v] |- _ =>
      destruct (ast_unparse v); [congruence|discriminate]
  end.
Qed.

Lemma variables_raise_inv (tree : node) (e : exc) :
  collect_variables ast_unparse tree = inl e ->
  exists n, printed tree n /\ ast_unparse n = inl e.
Proof.
  intros H. apply for_each_raises_inv in H as (n & st & Hn & Hb).
  destruct n; try discriminate.
  apply for_each_raises_inv in Hb as (t & st' & Ht & Hb).
  destruct t; try discriminate.
  exists n. split; [now apply printed_value with targets id ctx|].
  unfold bind in Hb. destruct (ast_unparse n); [congruence|discriminate].
Qed.

(** Each loop raises when [ast.unparse] raises on a node it prints. *)
Lemma imports_raise (tree n : node) (e : exc) :
  In n (walk tree) -> import_text ast_unparse n <> [] ->
  ast_unparse n = inl e ->
  exists e', collect_imports ast_unparse tree = inl e'.
Proof.
  intros Hn Hi He. apply for_each_raises with n; [exact Hn|].
  intros st. exists e. destruct n; try (now destruct Hi); simpl;
    now rewrite He.
Qed.

Lemma calls_raise (tree value : node) (attr : string) (ctx : expr_context)
    (args : list node) (kws : list (option string * node)) (e : exc) :
  In (Call (Attribute value attr ctx) args kws) (walk tree) ->
  ast_unparse value = inl e ->
  exists e', collect_calls ast_unparse tree = inl e'.
Proof.
  intros Hn He.
  apply for_each_raises with (Call (Attribute value attr ctx) args kws);
    [exact Hn|].
  intros st. exists e. simpl. now rewrite He.
Qed.

Lemma variables_raise (tree : node) (targets : list node) (value : node)
    (id : string) (ctx : expr_context) (e : exc) :
  In (Assign targets value) (walk tree) -> In (Name id ctx) targets ->
  ast_unparse value = inl e ->
  exists e', collect_variables ast_unparse tree = inl e'.
Proof.
  intros Hn Ht He. apply for_each_raises with (Assign targets value);
    [exact Hn|].
  intros st. apply for_each_raises with (Name id ctx); [exact Ht|].
  intros st'. exists e. simpl. now rewrite He.
Qed.

End Facts.

End CodeAnalysisMore.

(* ================================================================== *)
(** * Further properties of [CodeAnalysisTool] *)

Module CodeAnalysisExtras.
Import Text Ast Py Spec SpecTools Samples.
Import AstFacts PyFacts CodeAnalysisFacts CodeAnalysisMore CodeAnalysisTool.

Lemma import_texts_filter (ast_unparse : node -> M string) (l : list node) :
  flat_map (import_text ast_unparse) l
  = map (text_of ast_unparse) (filter is_import l).
Proof.
  induction l as [|n l IH]; [reflexivity|].
  destruct n; simpl; now rewrite IH.
Qed.

Lemma printed_counter (n : node) :
  printed counter_ast n -> n = Constant (KInt 0).
Proof.
  intros Hn. destruct Hn as [? H|? ? ? H|? ? ? ? ? H|? ? ? ? H _];
    vm_compute in H;
    repeat (destruct H as [H|H]; [try discriminate H|]);
    try contradiction.
  now injection H as _ <-.
Qed.

Lemma counter_accepted (n : node) :
  printed counter_ast n -> unparse_accepts Samples.unparse n.
Proof. intros Hn. rewrite (printed_counter n Hn). eexists; reflexivity. Qed.

(** The nodes of the sample with imports that reach [ast.unparse] are the
    two [Import] nodes and the receiver [os]. *)
Lemma imports_accepted (n : node) :
  printed SamplesMore.imports_ast n ->
  unparse_accepts SamplesMore.unparse n.
Proof.
  intros Hn. destruct Hn as [? H|? ? ? H|? ? ? ? ? H|? ? ? ? H _];
    vm_compute in H;
    repeat (destruct H as [H|H];
            [try discriminate H;
             try (inversion H; subst; eexists; reflexivity)|]);
    try contradiction.
Qed.

(** Nothing of the sample with a nested function reaches [ast.unparse]. *)
Lemma nested_accepted (n : node) :
  printed nested_ast n -> unparse_accepts Samples.unparse n.
Proof.
  intros Hn. destruct Hn as [? H|? ? ? H|? ? ? ? ? H|? ? ? ? H _];
    vm_compute in H;
    repeat (destruct H as [H|H]; [try discriminate H|]);
    try contradiction.
Qed.

(** X1.  On a text that parses, when [ast.unparse] accepts what it is
    given, [imports] holds the text of every [Import] and [ImportFrom] node
    of the tree, one per node in the order of [ast.walk], and nothing
    else. *)
Theorem imports_one_text_per_import_node
    (ast_parse : string -> M node) (ast_unparse : node -> M string)
    (code : string) (tree : node) :
  ast_parse code = inr tree ->
  (forall n, printed tree n -> unparse_accepts ast_unparse n) ->
  dict_get "imports" (_run ast_parse ast_unparse code)
  = Some (VList (map VStr (map (text_of ast_unparse)
                             (filter is_import (walk tree))))).
Proof.
  intros Hp Hun. rewrite (run_closed ast_parse ast_unparse code tree Hp Hun).
  simpl. now rewrite import_texts_filter.
Qed.

Lemma imports_one_text_per_import_node_witness :
  dict_get "imports"
    (_run SamplesMore.parse SamplesMore.unparse SamplesMore.imports_src)
  = Some (VList [VStr "import os"; VStr "import sys as s"]).
Proof.
  exact (imports_one_text_per_import_node SamplesMore.parse
           SamplesMore.unparse SamplesMore.imports_src
           SamplesMore.imports_ast eq_refl imports_accepted).
Defined.

(** X2.  On a text that parses, when [ast.unparse] accepts what it is
    given, [function_calls] holds the name of every call whose callee is a
    plain name and [attributes] holds receiver text, a dot and the attribute
    for every call whose callee is an attribute access, both in the order of
    [ast.walk].  A call with a plain name adds nothing to [attributes], a
    call with an attribute access adds nothing to [function_calls], and a
    call whose callee is anything else is in neither list. *)
Theorem calls_split_by_callee
    (ast_parse : string -> M node) (ast_unparse : node -> M string)
    (code : string) (tree : node) :
  ast_parse code = inr tree ->
  (forall n, printed tree n -> unparse_accepts ast_unparse n) ->
  dict_get "function_calls" (_run ast_parse ast_unparse code)
  = Some (VList (map VStr (flat_map call_name (walk tree))))
  /\ dict_get "attributes" (_run ast_parse ast_unparse code)
     = Some (VList (map VStr (flat_map (call_attribute ast_unparse)
                                (walk tree))))
  /\ (forall id ctx args kws,
        call_name (Call (Name id ctx) args kws) = [id]
        /\ call_attribute ast_unparse (Call (Name id ctx) args kws) = [])
  /\ (forall value attr ctx args kws,
        call_name (Call (Attribute value attr ctx) args kws) = []
        /\ call_attribute ast_unparse
             (Call (Attribute value attr ctx) args kws)
           = [(text_of ast_unparse value ++ "." ++ attr)%string])
  /\ (forall func args kws,
        (forall id ctx, func <> Name id ctx) ->
        (forall value attr ctx, func <> Attribute value attr ctx) ->
        call_name (Call func args kws) = []
        /\ call_attribute ast_unparse (Call func args kws) = [])
  /\ (forall n,
        (forall func args kws, n <> Call func args kws) ->
        call_name n = [] /\ call_attribute ast_unparse n = []).
Proof.
  intros Hp Hun. rewrite (run_closed ast_parse ast_unparse code tree Hp Hun).
  split; [reflexivity|]. split; [reflexivity|].
  split; [intros; split; reflexivity|].
  split; [intros; split; reflexivity|]. split.
  - intros func args kws Hn Ha. destruct func; try (split; reflexivity).
    + now destruct (Hn id ctx).
    + now destruct (Ha func attr ctx).
  - intros n H. destruct n; try (split; reflexivity).
    now destruct (H n args keywords).
Qed.

Lemma calls_split_by_callee_witness :
  dict_get "function_calls"
    (_run SamplesMore.parse SamplesMore.unparse SamplesMore.imports_src)
  = Some (VList [VStr "print"])
  /\ dict_get "attributes"
       (_run SamplesMore.parse SamplesMore.unparse SamplesMore.imports_src)
     = Some (VList [VStr "os.getcwd"]).
Proof.
  destruct (calls_split_by_callee SamplesMore.parse SamplesMore.unparse
              SamplesMore.imports_src SamplesMore.imports_ast eq_refl
              imports_accepted) as (Hnames & Hattrs & _).
  split; [exact Hnames | exact Hattrs].
Defined.

(** X3.  On a text that parses, [_run] reports failure exactly when
    [ast.unparse] raises on one of the nodes handed to it: an import
    statement, the receiver of a method call, or the value of an assignment
    to a plain name.  One such node is enough to lose every fact. *)
Theorem analysis_fails_iff_unparse_raises
    (ast_parse : string -> M node) (ast_unparse : node -> M string)
    (code : string) (tree : node) :
  ast_parse code = inr tree ->
  (failed (_run ast_parse ast_unparse code) <->
   exists n e, printed tree n /\ ast_unparse n = inl e).
Proof.
  intros Hp. unfold _run, run_body. rewrite Hp. simpl. split.
  - intros Hf.
    destruct (collect_imports ast_unparse tree) as [e|imports] eqn:Ei.
    { destruct (imports_raise_inv ast_unparse tree e Ei) as (n & Hn & He).
      now exists n, e. }
    simpl in Hf.
    destruct (collect_calls ast_unparse tree) as [e|calls] eqn:Ec.
    { destruct (calls_raise_inv ast_unparse tree e Ec) as (n & Hn & He).
      now exists n, e. }
    simpl in Hf.
    destruct (collect_variables ast_unparse tree) as [e|vars] eqn:Ev.
    { destruct (variables_raise_inv ast_unparse tree e Ev) as (n & Hn & He).
      now exists n, e. }
    discriminate.
  - intros (n & e & Hn & He).
    destruct (collect_imports ast_unparse tree) as [e1|imports] eqn:Ei;
      [reflexivity|].
    simpl.
    destruct (collect_calls ast_unparse tree) as [e2|calls] eqn:Ec;
      [reflexivity|].
    simpl.
    destruct (collect_variables ast_unparse tree) as [e3|vars] eqn:Ev;
      [reflexivity|].
    exfalso. destruct Hn as [names H|m names l H|v a c args kws H|ts v id c H Ht].
    + destruct (imports_raise ast_unparse tree (Import names) e H)
        as [e' He']; [discriminate | exact He | congruence].
    + destruct (imports_raise ast_unparse tree (ImportFrom m names l) e H)
        as [e' He']; [discriminate | exact He | congruence].
    + destruct (calls_raise ast_unparse tree v a c args kws e H He)
        as [e' He']. congruence.
    + destruct (variables_raise ast_unparse tree ts v id c e H Ht He)
        as [e' He']. congruence.
Qed.

Lemma analysis_fails_iff_unparse_raises_witness :
  failed (_run Samples.parse Samples.unparse counter_src) <->
  exists n e, printed counter_ast n /\ Samples.unparse n = inl e.
Proof.
  apply (analysis_fails_iff_unparse_raises Samples.parse Samples.unparse
           counter_src counter_ast).
  reflexivity.
Defined.

Lemma methods_of_spec (cls : node) (m : string) :
  In m (methods_of cls) <->
  exists margs body decs ret tps,
    below cls (FunctionDef m margs body decs ret tps).
Proof.
  unfold methods_of. rewrite in_flat_map. split.
  - intros (n & Hn & Hm). destruct n; try contradiction.
    destruct Hm as [<-|[]]. apply walk_spec in Hn. eauto 6.
  - intros (margs & body & decs & ret & tps & Hb).
    exists (FunctionDef m margs body decs ret tps).
    split; [now apply walk_spec | now left].
Qed.

(** X4.  On a text that parses, when [ast.unparse] accepts what it is
    given, [classes] has one entry for every [ClassDef] node of the tree,
    wherever it is nested, in the order of [ast.walk]; the [methods] of an
    entry are the names of all the [FunctionDef] nodes at any depth below
    that class, and of nothing else. *)
Theorem classes_list_every_function_below
    (ast_parse : string -> M node) (ast_unparse : node -> M string)
    (code : string) (tree : node) :
  ast_parse code = inr tree ->
  (forall n, printed tree n -> unparse_accepts ast_unparse n) ->
  dict_get "classes" (_run ast_parse ast_unparse code)
  = Some (VList (flat_map class_entry (walk tree)))
  /\ (forall cname bases kws body decs tps,
        class_entry (ClassDef cname bases kws body decs tps)
        = [VDict [("name", VStr cname);
                  ("methods",
                   VList (map VStr (methods_of
                                      (ClassDef cname bases kws body decs
                                         tps))))]])
  /\ (forall n,
        (forall cname bases kws body decs tps,
           n <> ClassDef cname bases kws body decs tps) ->
        class_entry n = [])
  /\ (forall cls m,
        In m (methods_of cls) <->
        exists margs body decs ret tps,
          below cls (FunctionDef m margs body decs ret tps)).
Proof.
  intros Hp Hun. rewrite (run_closed ast_parse ast_unparse code tree Hp Hun).
  split; [reflexivity|]. split; [reflexivity|]. split.
  - intros n Hn. destruct n; try reflexivity.
    now destruct (Hn name bases keywords body decorator_list type_params).
  - apply methods_of_spec.
Qed.

Lemma classes_list_every_function_below_witness :
  dict_get "classes" (_run Samples.parse Samples.unparse nested_src)
  = Some (VList [VDict [("name", VStr "C");
                        ("methods", VList [VStr "m"; VStr "inner"])]]).
Proof.
  destruct (classes_list_every_function_below Samples.parse Samples.unparse
              nested_src nested_ast eq_refl nested_accepted)
    as (Hclasses & _).
  exact Hclasses.
Defined.

(** X5.  The methods listed for a class nested in another class, or
    defined anywhere below it, are all listed again for the enclosing
    class. *)
Theorem nested_class_methods_repeated (outer inner : node) :
  In inner (walk outer) ->
  incl (methods_of inner) (methods_of outer).
Proof.
  intros Hin m Hm. apply methods_of_spec in Hm
    as (margs & body & decs & ret & tps & Hb).
  apply methods_of_spec. exists margs, body, decs, ret, tps.
  apply walk_spec in Hin. now apply below_trans with inner.
Qed.

Lemma nested_class_methods_repeated_witness :
  incl (methods_of (FunctionDef "m" (positional ["self"] [])
                      [FunctionDef "inner" no_arguments [Pass] [] None []]
                      [] None []))
       (methods_of nested_ast).
Proof.
  apply nested_class_methods_repeated.
  vm_compute. right. right. now left.
Defined.

End CodeAnalysisExtras.

(* ================================================================== *)
(** * Further properties of [SolutionValidator] and [DependencyAnalyzer] *)

Module ValidatorExtras.
Import Text Re Ast Py Spec SpecTools Samples.
Import TextFacts ReFacts AstFacts PyFacts ValidatorFacts SolutionValidator.

Lemma drop_spaces_head (l : list ascii) (d : ascii) (r : list ascii) :
  drop_spaces l = d :: r -> is_space d = false.
Proof.
  induction l as [|c l IH]; simpl; [discriminate|].
  destruct (is_space c) eqn:E; [exact IH|].
  intros H. injection H as <- _. exact E.
Qed.

(** What [rstrip] returns never ends in a white-space character. *)
Lemma rstrip_no_trailing_space (c : ascii) (s : string) :
  is_space c = true -> endswith_char c (rstrip s) = false.
Proof.
  intros Hc. unfold endswith_char, rstrip.
  rewrite list_ascii_of_string_of_list_ascii, rev_involutive.
  destruct (drop_spaces (rev (list_ascii_of_string s))) as [|d r] eqn:E;
    [reflexivity|].
  apply drop_spaces_head in E.
  destruct (Ascii.eqb_spec d c) as [->|_]; [congruence | reflexivity].
Qed.

(** X6.  The second check of [_check_pep8] tests each line after
    [rstrip], so it never finds trailing white space: the function answers
    whether the text has no tab and no line longer than 79 characters, and
    nothing more. *)
Theorem check_pep8_ignores_trailing_whitespace (code : string) :
  _check_pep8 code
  = (count_char TAB code =? 0)
    && forallb (fun line => String.length line <=? 79) (splitlines code).
Proof.
  unfold _check_pep8.
  assert (H : existsb (fun line => endswith_char " " (rstrip line))
                (splitlines code) = false).
  { induction (splitlines code) as [|line l IH]; [reflexivity|]. simpl.
    rewrite IH, orb_false_r. now apply rstrip_no_trailing_space. }
  rewrite H. simpl. now rewrite andb_true_r.
Qed.

(** X7.  [has_type_hints] is true exactly when the text holds a colon that
    is followed, after any run of white space, line breaks included, by an
    ASCII letter. *)
Theorem has_type_hints_iff (code : string) :
  has_type_hints code = true <->
  exists pre ws c post,
    code = (pre ++ ":" ++ ws ++ String c post)%string
    /\ all_chars is_space ws = true /\ ascii_letter c = true.
Proof.
  unfold has_type_hints. rewrite search_spec. split.
  - intros (pre & m & post & -> & Hm). unfold type_hint_re in Hm.
    apply matches_cat in Hm as (colon & m1 & -> & Hc & Hm).
    apply matches_lit in Hc as ->.
    apply matches_cat in Hm as (ws & m2 & -> & Hws & Hm).
    apply matches_set_star in Hws.
    apply matches_cat in Hm as (letters & tail & -> & Hl & _).
    apply matches_set_plus in Hl as [Hne Hl].
    destruct letters as [|c rest]; [congruence|].
    simpl in Hl. apply andb_true_iff in Hl as [Hc _].
    exists pre, ws, c, (rest ++ tail ++ post)%string.
    split; [|split; assumption].
    rewrite ?append_assoc. simpl. now rewrite ?append_assoc.
  - intros (pre & ws & c & post & -> & Hws & Hc).
    exists pre, (":" ++ ws ++ String c "")%string, post. split.
    { rewrite !append_assoc. reflexivity. }
    unfold type_hint_re. apply MCat; [now apply matches_lit|].
    apply MCat; [now apply matches_set_star|].
    rewrite <- (append_nil_r (String c "")).
    apply MCat; [|apply MStar0].
    apply matches_set_plus. split; [discriminate|].
    simpl. now rewrite andb_true_r.
Qed.

(** X8.  A text in which [bare_except] is found contains the word except,
    so for it [has_error_handling] is decided by try: alone: a bare
    handler counts as error handling. *)
Theorem bare_except_counts_as_error_handling (code : string) :
  bare_except code = true ->
  has_error_handling code = str_in "try:" code.
Proof.
  unfold bare_except, has_error_handling. intros H.
  apply str_in_spec in H as (pre & post & ->).
  assert (E : str_in "except" (pre ++ "except:" ++ post) = true).
  { apply str_in_spec. exists pre, (":" ++ post)%string. reflexivity. }
  rewrite E. apply andb_true_r.
Qed.

Lemma bare_except_counts_as_error_handling_witness :
  has_error_handling literal_src = str_in "try:" literal_src.
Proof.
  apply bare_except_counts_as_error_handling. reflexivity.
Defined.

(** X9.  On a text that parses, a message is in [class_issues] exactly
    when it names a function defined with [def] at any depth below a class
    of the tree, a function local to a method included, whose positional
    parameters start with a name other than [self]. *)
Theorem class_issues_iff
    (ast_parse : string -> M node) (code : string) (tree : node) :
  ast_parse code = inr tree ->
  exists issues,
    dict_get "class_issues" (_run ast_parse code)
    = Some (VList (map VStr issues))
    /\ forall msg,
         In msg issues <->
         exists cname bases kws body decs tps name margs fbody fdecs ret ftps,
           In (ClassDef cname bases kws body decs tps) (walk tree)
           /\ In (FunctionDef name margs fbody fdecs ret ftps)
                (walk (ClassDef cname bases kws body decs tps))
           /\ msg = issue_message name /\ first_not_self margs.
Proof.
  intros Hp. exists (collect_class_issues tree). split.
  { now rewrite (run_parsed _ _ Hp). }
  intros msg. rewrite collect_class_issues_closed, in_flat_map. split.
  - intros (cls & Hcls & Hin). destruct cls; try contradiction.
    cbn [class_issues_of] in Hin.
    apply in_flat_map in Hin as (m & Hm & Hin).
    apply function_defs_spec in Hm as [Hm _].
    apply method_issue_inv in Hin
      as (fname & margs & fbody & fdecs & ret & ftps & -> & -> & Hargs).
    exists name, bases, keywords, body, decorator_list, type_params.
    exists fname, margs, fbody, fdecs, ret, ftps. auto.
  - intros (cname & bases & kws & body & decs & tps & name & margs & fbody
            & fdecs & ret & ftps & Hc & Hf & -> & Hargs).
    exists (ClassDef cname bases kws body decs tps). split; [exact Hc|].
    cbn [class_issues_of]. apply in_flat_map.
    exists (FunctionDef name margs fbody fdecs ret ftps). split.
    + apply function_defs_spec. split; [exact Hf | repeat eexists].
    + destruct (method_issue_spec name margs fbody fdecs ret ftps)
        as [Hyes _].
      rewrite (Hyes Hargs). now left.
Qed.

Lemma class_issues_iff_witness :
  exists issues,
    dict_get "class_issues" (_run Samples.parse nested_src)
    = Some (VList (map VStr issues))
    /\ forall msg,
         In msg issues <->
         exists cname bases kws body decs tps name margs fbody fdecs ret ftps,
           In (ClassDef cname bases kws body decs tps) (walk nested_ast)
           /\ In (FunctionDef name margs fbody fdecs ret ftps)
                (walk (ClassDef cname bases kws body decs tps))
           /\ msg = issue_message name /\ first_not_self margs.
Proof.
  apply (class_issues_iff Samples.parse nested_src nested_ast). reflexivity.
Defined.

End ValidatorExtras.

Module DependencyExtras.
Import Py Spec Samples PyFacts DependencyFacts DependencyAnalyzer.

Lemma for_each_app {A S : Type} (l1 l2 : list A) (body : A -> S -> M S)
    (st : S) :
  for_each (l1 ++ l2) body st = bind (for_each l1 body st) (for_each l2 body).
Proof.
  revert st; induction l1 as [|x l1 IH]; intros st; simpl; [reflexivity|].
  destruct (body x st) as [e|st1]; simpl; [reflexivity | apply IH].
Qed.

(** X10.  When pip has run, the first of the five probes that raises ends
    the scan: the files before it were probed, the ones after it are not,
    and the scan returns the failure dictionary with the message of that
    exception. *)
Theorem scan_fails_at_first_raising_probe
    (h : host) (project_path : string) (result : CompletedProcess)
    (before : list string) (file : string) (after : list string) (e : exc) :
  pip_list h = Returns result ->
  common_dep_files = before ++ file :: after ->
  (forall f, In f before -> exists b, path_exists h project_path f = inr b) ->
  path_exists h project_path file = inl e ->
  _run h project_path
  = Some (VDict [("error", VStr (exc_msg e)); ("success", VBool false)]).
Proof.
  intros Hpip Hfiles Hbefore Hfile. unfold _run, after_pip, find_dep_files.
  rewrite Hpip, Hfiles, for_each_app.
  rewrite (probes_answer h project_path before [] Hbefore). simpl.
  unfold check_file at 1. rewrite Hfile. reflexivity.
Qed.

Lemma scan_fails_at_first_raising_probe_witness :
  _run SamplesMore.host_locked "/locked"
  = Some (VDict [("error",
                  VStr "[Errno 13] Permission denied: '/locked/pyproject.toml'");
                 ("success", VBool false)]).
Proof.
  apply (scan_fails_at_first_raising_probe SamplesMore.host_locked "/locked"
           pip_ok ["requirements.txt"] "pyproject.toml"
           ["setup.py"; "Pipfile"; "poetry.lock"] SamplesMore.denied).
  - reflexivity.
  - reflexivity.
  - intros f [<-|[]]. eexists; reflexivity.
  - reflexivity.
Defined.

End DependencyExtras.

(* ================================================================== *)
(** * Properties of [Debugger] *)

Module DictFacts.
Import Py Debugger.

Lemma assoc_dict_set_same (k : string) (v : pyval) (d : dict) :
  assoc k (dict_set k v d) = Some v.
Proof.
  induction d as [|[k' v'] d IH]; simpl.
  - now rewrite String.eqb_refl.
  - destruct (String.eqb k k') eqn:E; simpl; rewrite E; [reflexivity|exact IH].
Qed.

Lemma assoc_dict_set_other (k k' : string) (v : pyval) (d : dict) :
  k <> k' -> assoc k' (dict_set k v d) = assoc k' d.
Proof.
  intros Hne. induction d as [|[k2 v2] d IH]; simpl.
  - apply String.eqb_neq in Hne. rewrite String.eqb_sym in Hne.
    now rewrite Hne.
  - destruct (String.eqb k k2) eqn:E; simpl.
    + apply String.eqb_eq in E as <-.
      assert (E' : String.eqb k' k = false).
      { apply String.eqb_neq. congruence. }
      now rewrite E'.
    + destruct (String.eqb k' k2); [reflexivity | exact IH].
Qed.

Lemma dict_set_twice (k : string) (v1 v2 : pyval) (d : dict) :
  dict_set k v2 (dict_set k v1 d) = dict_set k v2 d.
Proof.
  induction d as [|[k' v'] d IH]; simpl.
  - now rewrite String.eqb_refl.
  - destruct (String.eqb k k') eqn:E; simpl; rewrite E;
      [reflexivity | now rewrite IH].
Qed.

Lemma keys_dict_set (k : string) (v : pyval) (d : dict) :
  map fst (dict_set k v d)
  = if dict_has k d then map fst d else map fst d ++ [k].
Proof.
  unfold dict_has. induction d as [|[k' v'] d IH]; simpl; [reflexivity|].
  destruct (String.eqb k k') eqn:E; simpl; [reflexivity|].
  rewrite IH. now destruct (assoc k d).
Qed.

Lemma dict_has_dict_set_other (k k' : string) (v : pyval) (d : dict) :
  k <> k' -> dict_has k' (dict_set k v d) = dict_has k' d.
Proof. intros H. unfold dict_has. now rewrite assoc_dict_set_other. Qed.

End DictFacts.

Module DebuggerExtras.
Import Text Py Debugger SamplesMore TextFacts PyFacts DictFacts.

(** The first required field that the inputs lack. *)
Lemma required_loop (inputs : dict) (fields : list string) :
  for_each fields
    (fun field (_ : unit) =>
       if negb (dict_has field inputs)
       then raise (missing_field field)
       else ret tt)
    tt
  = match find (fun field => negb (dict_has field inputs)) fields with
    | Some field => raise (missing_field field)
    | None => ret tt
    end.
Proof.
  induction fields as [|f fields IH]; simpl; [reflexivity|].
  destruct (negb (dict_has f inputs)); simpl; [reflexivity | exact IH].
Qed.

Lemma validate_closed (now : string) (inputs : dict) :
  _validate_inputs now (Some inputs)
  = match find (fun field => negb (dict_has field inputs)) required_fields
    with
    | Some field => raise (missing_field field)
    | None => ret (Some (dict_set "timestamp" (VStr now) inputs))
    end.
Proof.
  unfold _validate_inputs. rewrite required_loop.
  now destruct (find _ required_fields).
Qed.

(** X11.  [_validate_inputs] rejects a dictionary exactly when one of
    [code_issue], [code_context] and [project_path] is not among its keys,
    with a [ValueError] that names the first one missing in that order;
    the values under the keys are not looked at.  Otherwise it returns the
    dictionary with [timestamp] set. *)
Theorem validate_names_first_missing_field (now : string) (inputs : dict) :
  _validate_inputs now (Some inputs)
  = match find (fun field => negb (dict_has field inputs))
            ["code_issue"; "code_context"; "project_path"] with
    | Some field => inl (Exc "ValueError" (field ++ " is required"))
    | None => inr (Some (dict_set "timestamp" (VStr now) inputs))
    end.
Proof. apply validate_closed. Qed.

Lemma validate_returns_inv (now : string) (inputs : dict) (out : option dict) :
  _validate_inputs now (Some inputs) = inr out ->
  out = Some (dict_set "timestamp" (VStr now) inputs)
  /\ forall field, In field required_fields -> dict_has field inputs = true.
Proof.
  rewrite validate_closed.
  destruct (find _ required_fields) as [f|] eqn:E; [discriminate|].
  intros H. injection H as <-. split; [reflexivity|].
  intros field Hf. pose proof (find_none _ _ E field Hf) as Hn.
  now apply negb_false_iff in Hn.
Qed.

(** X12.  In the dictionary [_validate_inputs] returns, [timestamp] holds
    the time read, whatever the caller had put there; every other key
    keeps its value; the three required keys are present; and the keys
    stand in their old order, [timestamp] being added at the end when it
    is new. *)
Theorem validated_inputs_keep_fields
    (now : string) (inputs validated : dict) :
  _validate_inputs now (Some inputs) = inr (Some validated) ->
  assoc "timestamp" validated = Some (VStr now)
  /\ (forall k, k <> "timestamp" -> assoc k validated = assoc k inputs)
  /\ (forall field, In field required_fields ->
                    dict_has field validated = true)
  /\ map fst validated
     = (if dict_has "timestamp" inputs then map fst inputs
        else map fst inputs ++ ["timestamp"]).
Proof.
  intros H. apply validate_returns_inv in H as [E Hreq].
  injection E as ->. split; [apply assoc_dict_set_same|]. split.
  { intros k Hk. apply assoc_dict_set_other. congruence. }
  split; [|apply keys_dict_set].
  intros field Hf. rewrite dict_has_dict_set_other; [now apply Hreq|].
  destruct Hf as [<-|[<-|[<-|[]]]]; discriminate.
Qed.

Lemma validated_inputs_keep_fields_witness :
  assoc "timestamp" (full_inputs ++ [("timestamp", VStr "t")])
  = Some (VStr "t").
Proof.
  apply (validated_inputs_keep_fields "t" full_inputs
           (full_inputs ++ [("timestamp", VStr "t")])).
  reflexivity.
Defined.

(** X13.  Inputs that were validated pass validation again, and the
    second pass changes nothing but the time stamp. *)
Theorem validation_can_be_repeated
    (t1 t2 : string) (inputs validated : dict) :
  _validate_inputs t1 (Some inputs) = inr (Some validated) ->
  _validate_inputs t2 (Some validated)
  = inr (Some (dict_set "timestamp" (VStr t2) inputs)).
Proof.
  intros H. apply validate_returns_inv in H as [E Hreq].
  injection E as ->. rewrite validate_closed.
  destruct (find _ required_fields) as [f|] eqn:Ef.
  - apply find_some in Ef as [Hf Hn]. apply negb_true_iff in Hn.
    rewrite dict_has_dict_set_other in Hn.
    + rewrite (Hreq f Hf) in Hn. discriminate.
    + destruct Hf as [<-|[<-|[<-|[]]]]; discriminate.
  - now rewrite dict_set_twice.
Qed.

Lemma validation_can_be_repeated_witness :
  _validate_inputs "t2" (Some (full_inputs ++ [("timestamp", VStr "t1")]))
  = inr (Some (dict_set "timestamp" (VStr "t2") full_inputs)).
Proof.
  apply (validation_can_be_repeated "t1" "t2" full_inputs). reflexivity.
Defined.

(** X14.  When a required field is missing, [run] raises the
    [ValueError] that names it, whatever crew it was given: no agent is
    built and the crew is not started. *)
Theorem run_rejects_before_crew
    (c : crew) (t_validate t_format : string) (inputs : dict)
    (field : string) :
  find (fun field => negb (dict_has field inputs)) required_fields
  = Some field ->
  run c t_validate t_format (Some inputs)
  = inl (Exc "ValueError" (field ++ " is required")).
Proof. intros H. unfold run. now rewrite validate_closed, H. Qed.

Lemma run_rejects_before_crew_witness :
  run crew_ok "t1" "t2" (Some partial_inputs)
  = inl (Exc "ValueError" "code_context is required").
Proof.
  apply (run_rejects_before_crew crew_ok "t1" "t2" partial_inputs
           "code_context").
  reflexivity.
Defined.

(** X15.  When no required field is missing and the crew can be built,
    the crew is started on the inputs with the time stamp added, and what
    [run] returns is the report around the crew's result, which it
    contains word for word. *)
Theorem run_reports_crew_result
    (c : crew) (t_validate t_format : string) (inputs : dict)
    (result : string) :
  find (fun field => negb (dict_has field inputs)) required_fields = None ->
  new_crew c = inr tt ->
  kickoff c (Some (dict_set "timestamp" (VStr t_validate) inputs))
  = inr result ->
  run c t_validate t_format (Some inputs)
  = inr (_format_results t_format result)
  /\ str_in result (_format_results t_format result) = true.
Proof.
  intros Hf Hc Hk. split.
  - unfold run. rewrite validate_closed, Hf. simpl. rewrite Hc. simpl.
    now rewrite Hk.
  - apply str_in_spec.
    exists (report_head ++ t_format ++ report_middle)%string, report_tail.
    unfold _format_results. now rewrite !append_assoc.
Qed.

Lemma run_reports_crew_result_witness :
  run crew_ok "t1" "t2" (Some full_inputs)
  = inr (_format_results "t2" "fixed")
  /\ str_in "fixed" (_format_results "t2" "fixed") = true.
Proof.
  apply (run_reports_crew_result crew_ok "t1" "t2" full_inputs "fixed");
    reflexivity.
Defined.

Lemma append_length (a b : string) :
  String.length (a ++ b) = String.length a + String.length b.
Proof. induction a as [|c a IH]; simpl; [reflexivity | now rewrite IH]. Qed.

Lemma append_cancel_l (a x y : string) :
  (a ++ x)%string = (a ++ y)%string -> x = y.
Proof.
  induction a as [|c a IH]; simpl; [easy|]. intros H. injection H as H. auto.
Qed.

Lemma append_cancel_r (x y b : string) :
  (x ++ b)%string = (y ++ b)%string -> x = y.
Proof.
  revert y; induction x as [|c x IH]; intros y H.
  - destruct y as [|d y]; [reflexivity|].
    apply (f_equal String.length) in H. simpl in H.
    rewrite append_length in H. lia.
  - destruct y as [|d y].
    + apply (f_equal String.length) in H. simpl in H.
      rewrite append_length in H. lia.
    + simpl in H. injection H as -> H. now rewrite (IH y H).
Qed.

(** X16.  Two reports made at the same time are equal only when the
    results they report are equal: the result can be read back from the
    report. *)
Theorem format_results_injective (now r1 r2 : string) :
  _format_results now r1 = _format_results now r2 -> r1 = r2.
Proof.
  unfold _format_results. intros H.
  apply append_cancel_l in H. apply append_cancel_l in H.
  apply append_cancel_l in H. now apply append_cancel_r in H.
Qed.

Lemma format_results_injective_witness : "fixed" = "fixed".
Proof.
  apply (format_results_injective "t" "fixed" "fixed"). reflexivity.
Defined.

End DebuggerExtras.

(* ================================================================== *)
(** * Properties of the command line *)

Module MainExtras.
Import Text Py Debugger Main SamplesMore SpecMain PyFacts DictFacts.

Lemma no_exit_lift {A : Type} (c : M A) : no_exit (lift c).
Proof. intros s. destruct c; discriminate. Qed.

Lemma no_exit_emit (ev : event) : no_exit (emit ev).
Proof. intros s. discriminate. Qed.

Lemma no_exit_then {A B : Type} (p : Proc A) (k : A -> Proc B) :
  no_exit p -> (forall a, no_exit (k a)) -> no_exit (then_ p k).
Proof.
  intros Hp Hk s. unfold then_. destruct (snd p) as [a|e|s'] eqn:E; simpl.
  - apply Hk.
  - discriminate.
  - now destruct (Hp s').
Qed.

Lemma no_exit_call {A : Type} (ev : event) (c : M A) : no_exit (call ev c).
Proof.
  apply no_exit_then; [apply no_exit_emit | intros; apply no_exit_lift].
Qed.

(** A [try] whose handler ends in [sys.exit(1)] around a body that calls no
    [sys.exit] returns or exits with status 1. *)
Lemma try_exits_1 (body : Proc unit) (handler : exc -> Proc unit) :
  no_exit body -> (forall e, snd (handler e) = Exited 1%Z) ->
  snd (try_ body handler) = Returned tt
  \/ snd (try_ body handler) = Exited 1%Z.
Proof.
  intros Hb Hh. unfold try_. destruct (snd body) as [[]|e|s] eqn:E.
  - left. exact E.
  - right. apply Hh.
  - now destruct (Hb s).
Qed.

Lemma report_error_exits (e : exc) :
  snd (@report_error unit e) = Exited 1%Z.
Proof. reflexivity. Qed.

Lemma snd_then_returned {A B : Type} (p : Proc A) (k : A -> Proc B) (a : A) :
  snd p = Returned a -> snd (then_ p k) = snd (k a).
Proof. intros H. unfold then_. now rewrite H. Qed.

Lemma snd_then_raised {A B : Type} (p : Proc A) (k : A -> Proc B) (e : exc) :
  snd p = Raised e -> snd (then_ p k) = Raised e.
Proof. intros H. unfold then_. now rewrite H. Qed.

(** Once the usage test is passed, [train] reads the working directory and
    enters its [try]. *)
Lemma after_cwd_ends (w : world) (k : string -> Proc unit) :
  (forall path, snd (k path) = Returned tt \/ snd (k path) = Exited 1%Z) ->
  snd (then_ (lift (cwd w)) k) = Returned tt
  \/ snd (then_ (lift (cwd w)) k) = Exited 1%Z
  \/ exists e, cwd w = inl e /\ snd (then_ (lift (cwd w)) k) = Raised e.
Proof.
  intros Hk. destruct (cwd w) as [e|path] eqn:E.
  - right. right. exists e. split; [reflexivity|].
    now apply snd_then_raised.
  - rewrite (snd_then_returned (lift (inr path)) k path eq_refl).
    destruct (Hk path) as [H|H]; [now left | right; now left].
Qed.

Lemma train_ends (w : world) :
  snd (train w) = Returned tt \/ snd (train w) = Exited 1%Z
  \/ exists e, cwd w = inl e /\ snd (train w) = Raised e.
Proof.
  unfold train. destruct (List.length (argv w) <? 3);
    [right; now left|].
  rewrite (snd_then_returned (pure tt) _ tt eq_refl).
  apply after_cwd_ends. intros path.
  apply try_exits_1; [|apply report_error_exits].
  repeat (apply no_exit_then; [apply no_exit_lift | intros]).
  apply no_exit_call.
Qed.

Lemma test_ends (w : world) :
  snd (test w) = Returned tt \/ snd (test w) = Exited 1%Z
  \/ exists e, cwd w = inl e /\ snd (test w) = Raised e.
Proof.
  unfold test. destruct (List.length (argv w) <? 3);
    [right; now left|].
  rewrite (snd_then_returned (pure tt) _ tt eq_refl).
  apply after_cwd_ends. intros path.
  apply try_exits_1; [|apply report_error_exits].
  repeat (apply no_exit_then; [apply no_exit_lift | intros]).
  apply no_exit_call.
Qed.

Lemma replay_ends (w : world) :
  snd (replay w) = Returned tt \/ snd (replay w) = Exited 1%Z.
Proof.
  unfold replay. destruct (List.length (argv w) <? 2); [now right|].
  apply try_exits_1; [|apply report_error_exits].
  repeat (apply no_exit_then; [apply no_exit_lift | intros]).
  apply no_exit_call.
Qed.

Lemma run_ends (w : world) :
  snd (Main.run w) = Returned tt \/ snd (Main.run w) = Exited 1%Z
  \/ exists e, cwd w = inl e /\ snd (Main.run w) = Raised e.
Proof.
  unfold Main.run. apply after_cwd_ends. intros path. apply try_exits_1.
  - apply no_exit_then; [apply no_exit_call | intros].
    repeat (apply no_exit_then; [apply no_exit_emit | intros]).
    apply no_exit_then; [apply no_exit_lift | intros].
    apply no_exit_then; [apply no_exit_call | intros].
    repeat (apply no_exit_then; [apply no_exit_emit | intros]).
    apply no_exit_emit.
  - intros e. destruct (is_ValueError w e); reflexivity.
Qed.

(** X17.  The program started from the main block ends in one of three
    ways: it returns, it ends with exit status 1, or it is left by the
    exception that reading the working directory raised, which happens
    before the [try] of [run], [train] and [test] is entered.  No other
    exception raised outside the file gets out. *)
Theorem main_block_endings (w : world) :
  snd (main_block w) = Returned tt
  \/ snd (main_block w) = Exited 1%Z
  \/ exists e, cwd w = inl e /\ snd (main_block w) = Raised e.
Proof.
  unfold main_block. destruct (1 <? List.length (argv w)) eqn:E;
    [|apply run_ends].
  unfold argv_at.
  destruct (argv w) as [|prog [|command rest]]; try discriminate.
  cbn [nth_error].
  rewrite (snd_then_returned (lift (ret command)) _ command eq_refl).
  destruct (String.eqb command "train"); [apply train_ends|].
  destruct (String.eqb command "replay").
  { destruct (replay_ends w) as [H|H]; [now left | right; now left]. }
  destruct (String.eqb command "test"); [apply test_ends|].
  right. now left.
Qed.

(** Each of the three endings occurs.  Started without arguments on a
    machine where everything works, the program returns; where the result
    file cannot be written, it ends with status 1; and in a working
    directory that has been removed, it is left by the exception of
    [os.getcwd] before anything is printed. *)
Lemma main_block_three_endings :
  snd (main_block (machine ["main.py"])) = Returned tt
  /\ snd (main_block (machine_read_only ["main.py"])) = Exited 1%Z
  /\ main_block (machine_without_cwd ["main.py"]) = ([], Raised no_cwd)
  /\ main_block (machine_without_cwd ["main.py"; "train"; "1"; "t.pkl"])
     = ([], Raised no_cwd)
  /\ main_block (machine_without_cwd ["main.py"; "test"; "1"; "gpt"])
     = ([], Raised no_cwd).
Proof. repeat split; vm_compute; reflexivity. Qed.




(** X19.  Started through the main block, [train] reads its number of
    iterations from the argument that holds the word train.  [int]
    refuses that word, so the crew is never trained, whatever else is on
    the command line.  The program ends with exit status 1, unless reading
    the working directory raised, in which case that exception leaves
    it. *)
Theorem dispatched_train_never_trains
    (w : world) (prog : string) (rest : list string) (e : exc) :
  argv w = prog :: "train" :: rest ->
  py_int w "train" = inl e ->
  (snd (main_block w) = Exited 1%Z
   \/ exists e', cwd w = inl e' /\ snd (main_block w) = Raised e')
  /\ forall n filename inputs,
       ~ In (CrewTrain n filename inputs) (fst (main_block w)).
Proof.
  intros Ha Hint. unfold main_block, argv_at. rewrite Ha. simpl.
  unfold train, argv_at. rewrite Ha. simpl.
  destruct rest as [|a rest]; simpl.
  { split; [now left|]. intros n f i [H|[]]. discriminate. }
  unfold try_, then_, lift.
  destruct (cwd w) as [e0|path]; simpl.
  { split; [right; now exists e0|]. intros n f i []. }
  destruct (new_crew (the_crew w)) as [e'|[]]; simpl.
  - split; [now left|].
    intros n f i H. repeat (destruct H as [H|H]; [discriminate|]).
    destruct H.
  - rewrite Hint. simpl. split; [now left|].
    intros n f i H. repeat (destruct H as [H|H]; [discriminate|]).
    destruct H.
Qed.

Lemma dispatched_train_never_trains_witness :
  snd (main_block (machine ["main.py"; "train"; "5"; "model.pkl"]))
  = Exited 1%Z
  /\ forall n filename inputs,
       ~ In (CrewTrain n filename inputs)
           (fst (main_block (machine ["main.py"; "train"; "5"; "model.pkl"]))).
Proof.
  destruct (dispatched_train_never_trains
              (machine ["main.py"; "train"; "5"; "model.pkl"]) "main.py"
              ["5"; "model.pkl"]
              (Exc "ValueError" "invalid literal for int()")
              eq_refl eq_refl) as [[H|(e' & He' & _)] Hno].
  - split; [exact H | exact Hno].
  - discriminate He'.
Defined.

(** X20.  The same holds for [test] started through the main block: it
    asks [int] for the value of the word test, so the crew is never
    tested.  The program ends with exit status 1, unless reading the
    working directory raised, in which case that exception leaves it. *)
Theorem dispatched_test_never_tests
    (w : world) (prog : string) (rest : list string) (e : exc) :
  argv w = prog :: "test" :: rest ->
  py_int w "test" = inl e ->
  (snd (main_block w) = Exited 1%Z
   \/ exists e', cwd w = inl e' /\ snd (main_block w) = Raised e')
  /\ forall n model inputs,
       ~ In (CrewTest n model inputs) (fst (main_block w)).
Proof.
  intros Ha Hint. unfold main_block, argv_at. rewrite Ha. simpl.
  unfold test, argv_at. rewrite Ha. simpl.
  destruct rest as [|a rest]; simpl.
  { split; [now left|]. intros n f i [H|[]]. discriminate. }
  unfold try_, then_, lift.
  destruct (cwd w) as [e0|path]; simpl.
  { split; [right; now exists e0|]. intros n f i []. }
  destruct (new_crew (the_crew w)) as [e'|[]]; simpl.
  - split; [now left|].
    intros n f i H. repeat (destruct H as [H|H]; [discriminate|]).
    destruct H.
  - rewrite Hint. simpl. split; [now left|].
    intros n f i H. repeat (destruct H as [H|H]; [discriminate|]).
    destruct H.
Qed.

Lemma dispatched_test_never_tests_witness :
  snd (main_block (machine ["main.py"; "test"; "3"; "gpt-4o"])) = Exited 1%Z
  /\ forall n model inputs,
       ~ In (CrewTest n model inputs)
           (fst (main_block (machine ["main.py"; "test"; "3"; "gpt-4o"]))).
Proof.
  destruct (dispatched_test_never_tests
              (machine ["main.py"; "test"; "3"; "gpt-4o"]) "main.py"
              ["3"; "gpt-4o"]
              (Exc "ValueError" "invalid literal for int()")
              eq_refl eq_refl) as [[H|(e' & He' & _)] Hno].
  - split; [exact H | exact Hno].
  - discriminate He'.
Defined.

(** X21.  Started through the main block, [replay] takes the word replay
    itself as the task to replay: no other task identifier from the
    command line ever reaches the crew, and when the crew can be built
    that word does. *)
Theorem dispatched_replay_replays_its_own_name
    (w : world) (prog : string) (rest : list string) :
  argv w = prog :: "replay" :: rest ->
  (forall task_id, In (CrewReplay task_id) (fst (main_block w)) ->
                   task_id = "replay")
  /\ (new_crew (the_crew w) = inr tt ->
      In (CrewReplay "replay") (fst (main_block w))).
Proof.
  intros Ha. unfold main_block, argv_at. rewrite Ha. simpl.
  unfold replay, argv_at. rewrite Ha. simpl.
  unfold try_, then_, lift, call, then_, emit, lift.
  destruct (new_crew (the_crew w)) as [e'|[]]; simpl.
  - split; [|discriminate].
    intros id H. repeat (destruct H as [H|H]; [discriminate|]). destruct H.
  - destruct (crew_replay w "replay") as [e'|[]]; simpl.
    + split; [|intros _; now left].
      intros id [H|H]; [now injection H as <-|].
      repeat (destruct H as [H|H]; [discriminate|]). destruct H.
    + split; [|intros _; now left].
      intros id [H|[]]. now injection H as <-.
Qed.

Lemma dispatched_replay_replays_its_own_name_witness :
  In (CrewReplay "replay")
    (fst (main_block (machine ["main.py"; "replay"; "task-42"]))).
Proof.
  apply (dispatched_replay_replays_its_own_name
           (machine ["main.py"; "replay"; "task-42"]) "main.py" ["task-42"]);
    reflexivity.
Defined.

(** X22.  Called with the number of iterations and the file name as first
    and second argument, as an entry point of its own, in a working
    directory that can be read, [train] builds the crew and trains it with
    that number, that file name and the sample inputs; it returns when the
    training returns. *)
Theorem train_as_entry_point
    (w : world) (prog number filename : string) (rest : list string)
    (n : Z) (path : string) :
  argv w = prog :: number :: filename :: rest ->
  cwd w = inr path ->
  py_int w number = inr n ->
  new_crew (the_crew w) = inr tt ->
  crew_train w n filename (sample_inputs path) = inr tt ->
  train w = ([CrewTrain n filename (sample_inputs path)], Returned tt).
Proof.
  intros Ha Hcwd Hint Hc Ht. unfold train, argv_at. rewrite Ha. simpl.
  unfold try_, then_, lift, call, then_, emit, lift. rewrite Hcwd. simpl.
  rewrite Hc. simpl. rewrite Hint. simpl. rewrite Ht. reflexivity.
Qed.

Lemma train_as_entry_point_witness :
  train (machine ["train"; "5"; "model.pkl"])
  = ([CrewTrain 5 "model.pkl" (sample_inputs "/proj")], Returned tt).
Proof.
  apply (train_as_entry_point (machine ["train"; "5"; "model.pkl"]) "train"
           "5" "model.pkl" [] 5%Z "/proj"); reflexivity.
Defined.


















End MainExtras.
